(** * The OpenCL backend of ppcg (opencl.c)

    A shallow embedding of the host/kernel code emitter of [src/opencl.c].

    The backend never builds text itself: every piece of output is a call
    on an [isl_printer].  The printer is therefore modelled as the trace of
    the calls made on it, in order.  Calls to isl (an external library) and
    to the ppcg helpers of print.c and gpu_print.c are recorded in the trace
    as one event each, except for the two helpers whose output the
    properties below are about, which are modelled from the
    specification. *)

From Stdlib Require Import ZArith String Ascii Bool Lia List.
Import ListNotations.

Local Open Scope string_scope.
Local Open Scope list_scope.

Set Implicit Arguments.

(** ** Loops

    [for (i = lo; i < lo + n; ++i) s = body i s;]  A [continue] in the
    source is a body that hands back its state unchanged. *)

Fixpoint for_loop {S : Type} (lo n : nat) (body : nat -> S -> S) (s : S) : S :=
  match n with
  | O => s
  | Datatypes.S n' => for_loop (Datatypes.S lo) n' body (body lo s)
  end.

(** The two macros at the top of opencl.c. *)
Definition min (a b : Z) : Z := if (a <? b)%Z then a else b.
Definition max (a b : Z) : Z := if (a >? b)%Z then a else b.

(** The characters that a C string literal escapes. *)
Definition dquote : string := String (ascii_of_nat 34) EmptyString.
Definition newline : string := String (ascii_of_nat 10) EmptyString.

(** ** The part of isl that the backend observes

    isl objects are opaque to opencl.c; each one is modelled by what the
    backend can learn from it through the isl functions it calls. *)

Inductive isl_dim_type : Type := isl_dim_param | isl_dim_set.

(** A space: its parameter names and the names of its set dimensions. *)
Record isl_space : Type := mk_space {
  space_params : list string;
  space_set_dims : list string
}.

Definition space_dims (sp : isl_space) (t : isl_dim_type) : list string :=
  match t with
  | isl_dim_param => space_params sp
  | isl_dim_set => space_set_dims sp
  end.

Definition isl_space_dim (sp : isl_space) (t : isl_dim_type) : nat :=
  length (space_dims sp t).

Definition isl_space_get_dim_name (sp : isl_space) (t : isl_dim_type)
    (pos : nat) : string :=
  nth pos (space_dims sp t) EmptyString.

(** A set is only ever tested with the two "plain" (syntactic) checks. *)
Record isl_set : Type := mk_set {
  isl_set_plain_is_empty : bool;
  isl_set_plain_is_universe : bool
}.

(** A union set is asked for its space and for its part in a given space. *)
Record isl_union_set : Type := mk_union_set {
  isl_union_set_get_space : isl_space;
  isl_union_set_extract_set : isl_space -> isl_set
}.

(** A piecewise affine expression is only printed; we keep what
    [isl_printer_print_pw_aff] shows of it. *)
Record isl_pw_aff : Type := mk_pw_aff { pw_aff_str : string }.

Definition isl_multi_pw_aff : Type := list isl_pw_aff.

Definition isl_multi_pw_aff_dim (m : isl_multi_pw_aff) (t : isl_dim_type) : Z :=
  Z.of_nat (length m).

Definition isl_multi_pw_aff_get_pw_aff (m : isl_multi_pw_aff) (pos : Z)
    : isl_pw_aff :=
  nth (Z.to_nat pos) m (mk_pw_aff EmptyString).

(** The only option read from the context. *)
Record isl_ctx : Type := mk_ctx { isl_options_get_ast_iterator_type : string }.

(** ** The program model (gpu.h)

    opencl.c reads the program, its arrays and its kernels through the
    structures of gpu.h and the functions of gpu.c. *)

(** Modelled from the spec: struct gpu_array_info is declared in gpu.h,
    which is missing from src/.  Following the data model of the
    specification an array has a name (unique in its program), an element
    type, a dimensionality and the flags is-scalar and is-read-only-scalar;
    opencl.c also reads its space.  The positive-size guard, which gpu.c
    computes from the bounds of the array, is a predicate over the
    parameters that the array determines; the array carries it. *)
Record gpu_array_info : Type := mk_array {
  array_space : isl_space;
  array_type : string;
  array_name : string;
  array_n_index : nat;
  array_is_scalar : bool;
  array_read_only_scalar : bool;
  array_positive_size_guard : isl_set
}.

(** Modelled from the spec: gpu_array_positive_size_guard is defined in
    gpu.c, which is missing from src/; the guard is the predicate over the
    parameters under which every extent of the array is positive. *)
Definition gpu_array_positive_size_guard (array : gpu_array_info) : isl_set :=
  array_positive_size_guard array.

(** Modelled from the spec: gpu_array_is_scalar is defined in gpu.c, which
    is missing from src/; it reads the flag is-scalar. *)
Definition gpu_array_is_scalar (array : gpu_array_info) : bool :=
  array_is_scalar array.

(** Modelled from the spec: gpu_array_is_read_only_scalar is defined in
    gpu.c, which is missing from src/; it reads the flag
    is-read-only-scalar. *)
Definition gpu_array_is_read_only_scalar (array : gpu_array_info) : bool :=
  array_read_only_scalar array.

(** Modelled from the spec: struct gpu_prog is declared in gpu.h, which is
    missing from src/.  A program has an ordered sequence of arrays, the
    global read ([copy_in]) and write ([copy_out]) footprints and a
    constraint set on the parameters ([context]); opencl.c also reads the
    isl context from it. *)
Record gpu_prog : Type := mk_prog {
  prog_ctx : isl_ctx;
  prog_context : isl_set;
  prog_array : list gpu_array_info;
  prog_copy_in : isl_union_set;
  prog_copy_out : isl_union_set
}.

Definition n_array (prog : gpu_prog) : nat := length (prog_array prog).

Definition null_array : gpu_array_info :=
  mk_array (mk_space [] []) EmptyString EmptyString 0 false false
    (mk_set false true).

(** [prog->array[i]]; the loops of opencl.c keep [i] below [n_array]. *)
Definition array_at (prog : gpu_prog) (i : nat) : gpu_array_info :=
  nth i (prog_array prog) null_array.

(** A kernel body is handed to isl for printing; of the tree we keep the
    context it lives in and a label. *)
Record isl_ast_node : Type := mk_ast_node {
  isl_ast_node_get_ctx : isl_ctx;
  ast_node_label : string
}.

Inductive ppcg_access_type : Type := ppcg_access_global | ppcg_access_shared
  | ppcg_access_private.

(** Modelled from the spec: struct ppcg_kernel_var is declared in gpu.h,
    which is missing from src/.  A kernel variable has a name, the array it
    belongs to, a storage class and an extent per dimension. *)
Record ppcg_kernel_var : Type := mk_kernel_var {
  var_array : gpu_array_info;
  var_type : ppcg_access_type;
  var_name : string;
  var_size : list Z
}.

(** Modelled from the spec: struct ppcg_kernel is declared in gpu.h, which
    is missing from src/.  A kernel has an id, a block-size vector, a
    grid-size vector, the footprint of the arrays it accesses, the space of
    its host loop iterators, a body and local variables. *)
Record ppcg_kernel : Type := mk_kernel {
  kernel_id : Z;
  block_dim : list Z;
  grid_size : isl_multi_pw_aff;
  kernel_arrays : isl_union_set;
  kernel_space : isl_space;
  kernel_tree : isl_ast_node;
  kernel_var : list ppcg_kernel_var
}.

(** Modelled from the spec: the block dimensionality [kernel->n_block] is
    the length of the block-size vector. *)
Definition n_block (kernel : ppcg_kernel) : Z :=
  Z.of_nat (length (block_dim kernel)).

(** [kernel->block_dim[i]]; read only for [0 <= i < n_block]. *)
Definition block_dim_at (kernel : ppcg_kernel) (i : Z) : Z :=
  nth (Z.to_nat i) (block_dim kernel) 0%Z.

(** ** The printer *)

Inductive event : Type :=
  (* isl_printer *)
  | Str (s : string)
  | Int (i : Z)
  | StartLine
  | EndLine
  | Indent (n : Z)
  | PwAff (e : isl_pw_aff)
  | Val (v : Z)
  | AstNode (tree : isl_ast_node)
  (* ppcg helpers defined outside opencl.c *)
  | StartBlock
  | EndBlock
  | ArraySize (array : gpu_array_info)
  | CallArgument (array : gpu_array_info)
  | Macros (tree : isl_ast_node)
  | GuardBegin (guard context : isl_set)
  | GuardEnd.

Definition isl_printer : Type := list event.

Definition emit (p : isl_printer) (e : event) : isl_printer := p ++ [e].

Definition isl_printer_print_str (p : isl_printer) (s : string) := emit p (Str s).
Definition isl_printer_print_int (p : isl_printer) (i : Z) := emit p (Int i).
Definition isl_printer_start_line (p : isl_printer) := emit p StartLine.
Definition isl_printer_end_line (p : isl_printer) := emit p EndLine.
Definition isl_printer_indent (p : isl_printer) (n : Z) := emit p (Indent n).
Definition isl_printer_print_pw_aff (p : isl_printer) (e : isl_pw_aff) :=
  emit p (PwAff e).
Definition isl_printer_print_val (p : isl_printer) (v : Z) := emit p (Val v).
(** [isl_ast_node_print] with the callback for kernel statements installed. *)
Definition isl_ast_node_print (tree : isl_ast_node) (p : isl_printer) :=
  emit p (AstNode tree).

Definition ppcg_start_block (p : isl_printer) := emit p StartBlock.
Definition ppcg_end_block (p : isl_printer) := emit p EndBlock.
Definition gpu_array_info_print_size (p : isl_printer) (array : gpu_array_info) :=
  emit p (ArraySize array).
(** Modelled from the spec: gpu_array_info_print_declaration_argument is
    defined in gpu_print.c, which is missing from src/.  The specification
    has an array argument of a declaration annotated with the address-space
    qualifier and with the element type of the array; the name of the array
    follows. *)
Definition gpu_array_info_print_declaration_argument (p : isl_printer)
    (array : gpu_array_info) (memory_space : string) : isl_printer :=
  let p := isl_printer_print_str p memory_space in
  let p := isl_printer_print_str p " " in
  let p := isl_printer_print_str p (array_type array) in
  let p := isl_printer_print_str p " " in
  isl_printer_print_str p (array_name array).
Definition gpu_array_info_print_call_argument (p : isl_printer)
    (array : gpu_array_info) :=
  emit p (CallArgument array).
Definition gpu_print_macros (p : isl_printer) (tree : isl_ast_node) :=
  emit p (Macros tree).

(** Modelled from the spec: ppcg_print_guarded is defined in print.c, which
    is missing from src/.  The specification has the statement printed by
    [fn] wrapped inside the guard, itself placed inside the parameter
    context, and has it emitted unguarded when the guard is trivial. *)
Definition ppcg_print_guarded {U : Type} (p : isl_printer)
    (guard context : isl_set) (fn : isl_printer -> U -> isl_printer) (user : U)
    : isl_printer :=
  if isl_set_plain_is_universe guard then fn p user
  else
    let p := emit p (GuardBegin guard context) in
    let p := fn p user in
    emit p GuardEnd.

(** ** Work sizes *)

Definition opencl_print_block_sizes (p : isl_printer) (kernel : ppcg_kernel)
    : isl_printer :=
  if (n_block kernel >? 0)%Z then
    for_loop 0 (Z.to_nat (n_block kernel))
      (fun i p =>
         let p := if negb (Nat.eqb i 0) then isl_printer_print_str p ", " else p in
         isl_printer_print_int p (block_dim_at kernel (Z.of_nat i)))
      p
  else
    isl_printer_print_str p "1".

Definition opencl_print_total_number_of_work_items_for_dim (p : isl_printer)
    (kernel : ppcg_kernel) (i : Z) : isl_printer :=
  let grid_dim := isl_multi_pw_aff_dim (grid_size kernel) isl_dim_set in
  let block_dim := n_block kernel in
  if (i <? min grid_dim block_dim)%Z then
    let bound_grid := isl_multi_pw_aff_get_pw_aff (grid_size kernel) i in
    let p := isl_printer_print_str p "(" in
    let p := isl_printer_print_pw_aff p bound_grid in
    let p := isl_printer_print_str p ") * " in
    isl_printer_print_int p (block_dim_at kernel i)
  else if (i >=? grid_dim)%Z then
    isl_printer_print_int p (block_dim_at kernel i)
  else
    let bound_grid := isl_multi_pw_aff_get_pw_aff (grid_size kernel) i in
    isl_printer_print_pw_aff p bound_grid.

(** The loop [for (i = 0; i <= max(grid_dim, block_dim) - 1; i++)] runs
    [max(grid_dim, block_dim)] times. *)
Definition opencl_print_total_number_of_work_items_as_list (p : isl_printer)
    (kernel : ppcg_kernel) : isl_printer :=
  let grid_dim := isl_multi_pw_aff_dim (grid_size kernel) isl_dim_set in
  let block_dim := n_block kernel in
  if (grid_dim <=? 0)%Z || (block_dim <=? 0)%Z then
    isl_printer_print_str p "1"
  else
    for_loop 0 (Z.to_nat (max grid_dim block_dim))
      (fun i p =>
         let p := if (Z.of_nat i >? 0)%Z then isl_printer_print_str p ", " else p in
         opencl_print_total_number_of_work_items_for_dim p kernel (Z.of_nat i))
      p.

(** ** Device arrays *)

Definition opencl_declare_device_arrays (p : isl_printer) (prog : gpu_prog)
    : isl_printer :=
  let p :=
    for_loop 0 (n_array prog)
      (fun i p =>
         if gpu_array_is_read_only_scalar (array_at prog i) then p
         else
           let p := isl_printer_start_line p in
           let p := isl_printer_print_str p "cl_mem dev_" in
           let p := isl_printer_print_str p (array_name (array_at prog i)) in
           let p := isl_printer_print_str p ";" in
           isl_printer_end_line p)
      p in
  let p := isl_printer_start_line p in
  isl_printer_end_line p.

Definition is_array_positive_size_guard_trivial (array : gpu_array_info) : bool :=
  let guard := gpu_array_positive_size_guard array in
  isl_set_plain_is_universe guard.

Definition allocate_device_array (p : isl_printer) (array : gpu_array_info)
    (copy : bool) : isl_printer :=
  let p := ppcg_start_block p in
  let p := isl_printer_start_line p in
  let p := isl_printer_print_str p "dev_" in
  let p := isl_printer_print_str p (array_name array) in
  let p := isl_printer_print_str p " = clCreateBuffer(context, " in
  let p := isl_printer_print_str p "CL_MEM_READ_WRITE" in
  let p :=
    if negb copy then isl_printer_print_str p ", "
    else isl_printer_print_str p " | CL_MEM_COPY_HOST_PTR, " in
  let need_lower_bound := negb (is_array_positive_size_guard_trivial array) in
  let p :=
    if need_lower_bound then
      let p := isl_printer_print_str p "max(sizeof(" in
      let p := isl_printer_print_str p (array_type array) in
      isl_printer_print_str p "), "
    else p in
  let p := gpu_array_info_print_size p array in
  let p := if need_lower_bound then isl_printer_print_str p ")" else p in
  let p :=
    if negb copy then isl_printer_print_str p ", NULL"
    else if gpu_array_is_scalar array then
      let p := isl_printer_print_str p ", &" in
      isl_printer_print_str p (array_name array)
    else
      let p := isl_printer_print_str p ", " in
      isl_printer_print_str p (array_name array) in
  let p := isl_printer_print_str p ", &err);" in
  let p := isl_printer_end_line p in
  let p := isl_printer_start_line p in
  let p := isl_printer_print_str p "openclCheckReturn(err);" in
  let p := isl_printer_end_line p in
  ppcg_end_block p.

Definition opencl_allocate_device_arrays (p : isl_printer) (prog : gpu_prog)
    : isl_printer :=
  let p :=
    for_loop 0 (n_array prog)
      (fun i p =>
         let array := array_at prog i in
         if gpu_array_is_read_only_scalar array then p
         else
           let space := array_space array in
           let read_i := isl_union_set_extract_set (prog_copy_in prog) space in
           let empty := isl_set_plain_is_empty read_i in
           allocate_device_array p array (negb empty))
      p in
  let p := isl_printer_start_line p in
  isl_printer_end_line p.

Definition copy_array_from_device (p : isl_printer) (array : gpu_array_info)
    : isl_printer :=
  let p := isl_printer_start_line p in
  let p := isl_printer_print_str p
             "openclCheckReturn(clEnqueueReadBuffer(queue, dev_" in
  let p := isl_printer_print_str p (array_name array) in
  let p := isl_printer_print_str p ", CL_TRUE, 0, " in
  let p := gpu_array_info_print_size p array in
  let p :=
    if gpu_array_is_scalar array then isl_printer_print_str p ", &"
    else isl_printer_print_str p ", " in
  let p := isl_printer_print_str p (array_name array) in
  let p := isl_printer_print_str p ", 0, NULL, NULL));" in
  isl_printer_end_line p.

Definition opencl_copy_arrays_from_device (p : isl_printer) (prog : gpu_prog)
    : isl_printer :=
  let copy_out := prog_copy_out prog in
  let p :=
    for_loop 0 (n_array prog)
      (fun i p =>
         let array := array_at prog i in
         let space := array_space array in
         let copy_out_i := isl_union_set_extract_set copy_out space in
         let empty := isl_set_plain_is_empty copy_out_i in
         if empty then p
         else
           let guard := gpu_array_positive_size_guard array in
           ppcg_print_guarded p guard (prog_context prog)
             copy_array_from_device array)
      p in
  let p := isl_printer_start_line p in
  isl_printer_end_line p.

Definition release_device_array (p : isl_printer) (array : gpu_array_info)
    : isl_printer :=
  let p := isl_printer_start_line p in
  let p := isl_printer_print_str p "openclCheckReturn(clReleaseMemObject(dev_" in
  let p := isl_printer_print_str p (array_name array) in
  let p := isl_printer_print_str p "));" in
  isl_printer_end_line p.

Definition opencl_release_device_arrays (p : isl_printer) (prog : gpu_prog)
    : isl_printer :=
  for_loop 0 (n_array prog)
    (fun i p =>
       let array := array_at prog i in
       if gpu_array_is_read_only_scalar array then p
       else release_device_array p array)
    p.

(** ** Kernel arguments *)

Definition opencl_set_kernel_argument (p : isl_printer) (kernel_id : Z)
    (arg_name : string) (arg_index : Z) (read_only_scalar : bool)
    : isl_printer :=
  let p := isl_printer_start_line p in
  let p := isl_printer_print_str p "openclCheckReturn(clSetKernelArg(kernel" in
  let p := isl_printer_print_int p kernel_id in
  let p := isl_printer_print_str p ", " in
  let p := isl_printer_print_int p arg_index in
  let p := isl_printer_print_str p ", sizeof(" in
  let p :=
    if read_only_scalar then
      let p := isl_printer_print_str p arg_name in
      isl_printer_print_str p "), &"
    else isl_printer_print_str p "cl_mem), (void *) &dev_" in
  let p := isl_printer_print_str p arg_name in
  let p := isl_printer_print_str p "));" in
  isl_printer_end_line p.

(** The source drops the pointer that [opencl_set_kernel_argument] returns;
    the printer is one object changed in place, so the statements still end
    up in it.  The state of the loops is the printer and [arg_index]. *)
Definition opencl_set_kernel_arguments (p : isl_printer) (prog : gpu_prog)
    (kernel : ppcg_kernel) : isl_printer :=
  let arg_index := 0%Z in
  let '(p, arg_index) :=
    for_loop 0 (n_array prog)
      (fun i '(p, arg_index) =>
         let space := array_space (array_at prog i) in
         let arr := isl_union_set_extract_set (kernel_arrays kernel) space in
         let empty := isl_set_plain_is_empty arr in
         if empty then (p, arg_index)
         else
           let ro := gpu_array_is_read_only_scalar (array_at prog i) in
           let p := opencl_set_kernel_argument p (kernel_id kernel)
                      (array_name (array_at prog i)) arg_index ro in
           (p, (arg_index + 1)%Z))
      (p, arg_index) in
  let space := isl_union_set_get_space (kernel_arrays kernel) in
  let nparam := isl_space_dim space isl_dim_param in
  let '(p, arg_index) :=
    for_loop 0 nparam
      (fun i '(p, arg_index) =>
         let name := isl_space_get_dim_name space isl_dim_param i in
         let p := opencl_set_kernel_argument p (kernel_id kernel) name
                    arg_index true in
         (p, (arg_index + 1)%Z))
      (p, arg_index) in
  let n := isl_space_dim (kernel_space kernel) isl_dim_set in
  let '(p, arg_index) :=
    for_loop 0 n
      (fun i '(p, arg_index) =>
         let name := isl_space_get_dim_name (kernel_space kernel) isl_dim_set i in
         let p := opencl_set_kernel_argument p (kernel_id kernel) name
                    arg_index true in
         (p, (arg_index + 1)%Z))
      (p, arg_index) in
  p.

(** The state of the loops is the printer and [first]. *)
Definition opencl_print_kernel_arguments (p : isl_printer) (prog : gpu_prog)
    (kernel : ppcg_kernel) (types : bool) : isl_printer :=
  let first := true in
  let '(p, first) :=
    for_loop 0 (n_array prog)
      (fun i '(p, first) =>
         let space := array_space (array_at prog i) in
         let arr := isl_union_set_extract_set (kernel_arrays kernel) space in
         let empty := isl_set_plain_is_empty arr in
         if empty then (p, first)
         else
           let p := if negb first then isl_printer_print_str p ", " else p in
           let p :=
             if types then
               gpu_array_info_print_declaration_argument p (array_at prog i)
                 "__global"
             else gpu_array_info_print_call_argument p (array_at prog i) in
           (p, false))
      (p, first) in
  let space := isl_union_set_get_space (kernel_arrays kernel) in
  let nparam := isl_space_dim space isl_dim_param in
  let '(p, first) :=
    for_loop 0 nparam
      (fun i '(p, first) =>
         let name := isl_space_get_dim_name space isl_dim_param i in
         let p := if negb first then isl_printer_print_str p ", " else p in
         let p := if types then isl_printer_print_str p "int " else p in
         let p := isl_printer_print_str p name in
         (p, false))
      (p, first) in
  let n := isl_space_dim (kernel_space kernel) isl_dim_set in
  let type := isl_options_get_ast_iterator_type (prog_ctx prog) in
  let '(p, first) :=
    for_loop 0 n
      (fun i '(p, first) =>
         let p := if negb first then isl_printer_print_str p ", " else p in
         let name := isl_space_get_dim_name (kernel_space kernel) isl_dim_set i in
         let p :=
           if types then
             let p := isl_printer_print_str p type in
             isl_printer_print_str p " "
           else p in
         let p := isl_printer_print_str p name in
         (p, false))
      (p, first) in
  p.

(** ** The kernel file *)

Definition opencl_print_kernel_header (p : isl_printer) (prog : gpu_prog)
    (kernel : ppcg_kernel) : isl_printer :=
  let p := isl_printer_start_line p in
  let p := isl_printer_print_str p "__kernel void kernel" in
  let p := isl_printer_print_int p (kernel_id kernel) in
  let p := isl_printer_print_str p "(" in
  let p := opencl_print_kernel_arguments p prog kernel true in
  let p := isl_printer_print_str p ")" in
  isl_printer_end_line p.

Definition opencl_print_kernel_iterators (p : isl_printer)
    (kernel : ppcg_kernel) : isl_printer :=
  let ctx := isl_ast_node_get_ctx (kernel_tree kernel) in
  let type := isl_options_get_ast_iterator_type ctx in
  let n_grid := isl_multi_pw_aff_dim (grid_size kernel) isl_dim_set in
  let p :=
    if (n_grid >? 0)%Z then
      let p := isl_printer_start_line p in
      let p := isl_printer_print_str p type in
      let p := isl_printer_print_str p " " in
      let p :=
        for_loop 0 (Z.to_nat n_grid)
          (fun i p =>
             let p := if negb (Nat.eqb i 0) then isl_printer_print_str p ", "
                      else p in
             let p := isl_printer_print_str p "b" in
             let p := isl_printer_print_int p (Z.of_nat i) in
             let p := isl_printer_print_str p " = get_group_id(" in
             let p := isl_printer_print_int p (Z.of_nat i) in
             isl_printer_print_str p ")")
          p in
      let p := isl_printer_print_str p ";" in
      isl_printer_end_line p
    else p in
  if (n_block kernel >? 0)%Z then
    let p := isl_printer_start_line p in
    let p := isl_printer_print_str p type in
    let p := isl_printer_print_str p " " in
    let p :=
      for_loop 0 (Z.to_nat (n_block kernel))
        (fun i p =>
           let p := if negb (Nat.eqb i 0) then isl_printer_print_str p ", "
                    else p in
           let p := isl_printer_print_str p "t" in
           let p := isl_printer_print_int p (Z.of_nat i) in
           let p := isl_printer_print_str p " = get_local_id(" in
           let p := isl_printer_print_int p (Z.of_nat i) in
           isl_printer_print_str p ")")
        p in
    let p := isl_printer_print_str p ";" in
    isl_printer_end_line p
  else p.

Definition opencl_print_kernel_var (p : isl_printer) (var : ppcg_kernel_var)
    : isl_printer :=
  let p := isl_printer_start_line p in
  let p :=
    match var_type var with
    | ppcg_access_shared => isl_printer_print_str p "__local "
    | _ => p
    end in
  let p := isl_printer_print_str p (array_type (var_array var)) in
  let p := isl_printer_print_str p " " in
  let p := isl_printer_print_str p (var_name var) in
  let p :=
    for_loop 0 (array_n_index (var_array var))
      (fun j p =>
         let p := isl_printer_print_str p "[" in
         let v := nth j (var_size var) 0%Z in
         let p := isl_printer_print_val p v in
         isl_printer_print_str p "]")
      p in
  let p := isl_printer_print_str p ";" in
  isl_printer_end_line p.

Definition opencl_print_kernel_vars (p : isl_printer) (kernel : ppcg_kernel)
    : isl_printer :=
  for_loop 0 (length (kernel_var kernel))
    (fun i p =>
       match nth_error (kernel_var kernel) i with
       | Some var => opencl_print_kernel_var p var
       | None => p
       end)
    p.

(** [opencl_print_kernel] opens a printer of its own on the kernel file;
    [kernel_c] is what that file holds so far. *)
Definition opencl_print_kernel (prog : gpu_prog) (kernel : ppcg_kernel)
    (kernel_c : isl_printer) : isl_printer :=
  let p := kernel_c in
  let p := opencl_print_kernel_header p prog kernel in
  let p := isl_printer_print_str p "{" in
  let p := isl_printer_end_line p in
  let p := isl_printer_indent p 4 in
  let p := opencl_print_kernel_iterators p kernel in
  let p := opencl_print_kernel_vars p kernel in
  let p := isl_printer_end_line p in
  let p := gpu_print_macros p (kernel_tree kernel) in
  let p := isl_ast_node_print (kernel_tree kernel) p in
  let p := isl_printer_print_str p "}" in
  isl_printer_end_line p.

(** ** The launch site

    [opencl_print_host_user] is the callback for a kernel node of the host
    tree: [kernel] is the annotation of the node, [prog] comes with the
    callback's data.  It writes to the host printer and, through
    [opencl_print_kernel], to the kernel file; both are returned. *)
Definition opencl_print_host_user (p : isl_printer) (prog : gpu_prog)
    (kernel_c : isl_printer) (kernel : ppcg_kernel)
    : isl_printer * isl_printer :=
  let p := isl_printer_start_line p in
  let p := isl_printer_print_str p "{" in
  let p := isl_printer_end_line p in
  let p := isl_printer_indent p 2 in

  let p := isl_printer_start_line p in
  let p := isl_printer_print_str p "size_t global_work_size[" in
  let p :=
    if (n_block kernel >? 0)%Z then isl_printer_print_int p (n_block kernel)
    else isl_printer_print_int p 1 in
  let p := isl_printer_print_str p "] = {" in
  let p := opencl_print_total_number_of_work_items_as_list p kernel in
  let p := isl_printer_print_str p "};" in
  let p := isl_printer_end_line p in

  let p := isl_printer_start_line p in
  let p := isl_printer_print_str p "size_t block_size[" in
  let p :=
    if (n_block kernel >? 0)%Z then isl_printer_print_int p (n_block kernel)
    else isl_printer_print_int p 1 in
  let p := isl_printer_print_str p "] = {" in
  let p := opencl_print_block_sizes p kernel in
  let p := isl_printer_print_str p "};" in
  let p := isl_printer_end_line p in

  let p := isl_printer_start_line p in
  let p := isl_printer_print_str p "cl_kernel kernel" in
  let p := isl_printer_print_int p (kernel_id kernel) in
  let p := isl_printer_print_str p
             (" = clCreateKernel(program, " ++ dquote ++ "kernel")%string in
  let p := isl_printer_print_int p (kernel_id kernel) in
  let p := isl_printer_print_str p (dquote ++ ", &err);")%string in
  let p := isl_printer_end_line p in
  let p := isl_printer_start_line p in
  let p := isl_printer_print_str p "openclCheckReturn(err);" in
  let p := isl_printer_end_line p in

  let p := opencl_set_kernel_arguments p prog kernel in

  let p := isl_printer_start_line p in
  let p := isl_printer_print_str p
             "openclCheckReturn(clEnqueueNDRangeKernel(queue, kernel" in
  let p := isl_printer_print_int p (kernel_id kernel) in
  let p := isl_printer_print_str p ", " in
  let p :=
    if (n_block kernel >? 0)%Z then isl_printer_print_int p (n_block kernel)
    else isl_printer_print_int p 1 in
  let p := isl_printer_print_str p
             ", NULL, global_work_size, block_size, 0, NULL, NULL));" in
  let p := isl_printer_end_line p in
  let p := isl_printer_start_line p in
  let p := isl_printer_print_str p "openclCheckReturn(clReleaseKernel(kernel" in
  let p := isl_printer_print_int p (kernel_id kernel) in
  let p := isl_printer_print_str p "));" in
  let p := isl_printer_end_line p in
  let p := isl_printer_start_line p in
  let p := isl_printer_print_str p "clFinish(queue);" in
  let p := isl_printer_end_line p in
  let p := isl_printer_indent p (-2) in
  let p := isl_printer_start_line p in
  let p := isl_printer_print_str p "}" in
  let p := isl_printer_end_line p in

  let p := isl_printer_start_line p in
  let p := isl_printer_end_line p in

  let kernel_c := opencl_print_kernel prog kernel kernel_c in
  (p, kernel_c).

(** ** Output files

    A [FILE *] is either NULL ([None]) or a handle on a named file.  The
    world holds what the file system lets us open, the handles that are
    open, those that were closed, what was written to each file, and what
    went to stderr.  Handing a NULL stream to [fprintf] is undefined
    behaviour; the model stops there. *)

Definition FILE : Type := string.

Record world : Type := mk_world {
  can_open : string -> bool;
  open_handles : list FILE;
  closed_handles : list FILE;
  written : list (FILE * string);
  stderr : list string
}.

Inductive outcome (A : Type) : Type :=
  | Returns (a : A)
  | Undefined.

Arguments Undefined {A}.

Definition bind {A B : Type} (m : outcome A) (k : A -> outcome B) : outcome B :=
  match m with
  | Returns a => k a
  | Undefined => Undefined
  end.

Notation "x <- m ;; k" := (bind m (fun x => k))
  (at level 61, m at next level, right associativity).
Notation "' pat <- m ;; k" := (bind m (fun x => match x with pat => k end))
  (at level 61, pat pattern, m at next level, right associativity).

Definition fopen_w (name : string) (w : world) : option FILE * world :=
  if can_open w name then
    (Some name,
     mk_world (can_open w) (open_handles w ++ [name]) (closed_handles w)
       (written w) (stderr w))
  else (None, w).

Definition fprintf_stderr (text : string) (w : world) : world :=
  mk_world (can_open w) (open_handles w) (closed_handles w) (written w)
    (stderr w ++ [text]).

Definition fprintf (stream : option FILE) (text : string) (w : world)
    : outcome world :=
  match stream with
  | Some f =>
      Returns (mk_world (can_open w) (open_handles w) (closed_handles w)
                 (written w ++ [(f, text)]) (stderr w))
  | None => Undefined
  end.

Definition fclose (f : FILE) (w : world) : world :=
  mk_world (can_open w)
    (filter (fun g => negb (String.eqb g f)) (open_handles w))
    (closed_handles w ++ [f]) (written w) (stderr w).

Record opencl_info : Type := mk_info {
  info_input : string;
  info_output : option string;
  info_kernel_c_name : string;
  info_host_c : option FILE;
  info_kernel_c : option FILE;
  info_kernel_h : option FILE
}.

Definition open_or_croak (name : string) (w : world) : option FILE * world :=
  let '(file, w) := fopen_w name w in
  match file with
  | Some _ => (file, w)
  | None =>
      (file,
       fprintf_stderr
         ("Failed to open " ++ dquote ++ name ++ dquote ++ " for writing"
          ++ newline)%string w)
  end.

(** Position of the last occurrence of [c] in [s]. *)
Fixpoint strrchr (s : string) (c : ascii) : option nat :=
  match s with
  | EmptyString => None
  | String a rest =>
      match strrchr rest c with
      | Some k => Some (S k)
      | None => if Ascii.eqb a c then Some 0 else None
      end
  end.

Definition opencl_close_files (info : opencl_info) (w : world) : world :=
  let w := match info_kernel_c info with Some f => fclose f w | None => w end in
  let w := match info_kernel_h info with Some f => fclose f w | None => w end in
  match info_host_c info with Some f => fclose f w | None => w end.

(** [PATH_MAX] of <limits.h>, the size of the buffers [name] and
    [kernel_c_name]: 4096 on Linux. *)
Definition PATH_MAX : nat := 4096.

(** Storing [size] bytes at [offset] in a buffer of [PATH_MAX] bytes, as
    [memcpy] and [strcpy] do.  Past the end of the buffer the behaviour is
    undefined. *)
Definition buffer_write (offset size : nat) : outcome unit :=
  if (offset + size <=? PATH_MAX)%nat then Returns tt else Undefined.

Section Artifacts.

(** The helpers of ppcg.c and the generator of gpu.c that opencl.c calls.
    [ppcg_extract_base_name] yields the characters it stores in [name];
    their number is the length it returns. *)
Variable ppcg_extract_base_name : string -> string.
Variable ppcg_base_name : string -> string.
Variable generate_gpu : opencl_info -> world -> Z * world.

(** [name] holds [len] characters of base name once the first branch is
    through; each [strcpy (name + len, suffix)] then makes it
    [base ++ suffix] and stores the suffix with its final zero. *)
Definition opencl_open_files (info : opencl_info) (w : world)
    : outcome (Z * opencl_info * world) :=
  '(base, len, host_c, w) <-
    match info_output info with
    | Some output =>
        let ext := strrchr output "." in
        let len := match ext with Some k => k | None => String.length output end in
        (* memcpy (name, info->output, len) *)
        stored <- buffer_write 0 len ;;
        let name := substring 0 len output in
        let '(host_c, w) := open_or_croak output w in
        Returns (name, len, host_c, w)
    | None =>
        let name := ppcg_extract_base_name (info_input info) in
        let len := String.length name in
        (* strcpy (name + len, "_host.c") *)
        stored <- buffer_write len 8 ;;
        let '(host_c, w) := open_or_croak (name ++ "_host.c")%string w in
        Returns (name, len, host_c, w)
    end ;;
  (* memcpy (info->kernel_c_name, name, len) *)
  stored <- buffer_write 0 len ;;
  (* strcpy (info->kernel_c_name + len, "_kernel.cl") *)
  stored <- buffer_write len 11 ;;
  let kernel_c_name := (base ++ "_kernel.cl")%string in
  let '(kernel_c, w) := open_or_croak kernel_c_name w in
  (* strcpy (name + len, "_kernel.h") *)
  stored <- buffer_write len 10 ;;
  let name := (base ++ "_kernel.h")%string in
  let '(kernel_h, w) := open_or_croak name w in
  let info :=
    mk_info (info_input info) (info_output info) kernel_c_name
      host_c kernel_c kernel_h in
  let is_null (f : option FILE) := match f with Some _ => false | None => true end in
  if is_null (info_host_c info) || is_null (info_kernel_c info)
     || is_null (info_host_c info)
  then Returns ((-1)%Z, info, w)
  else
    w <- fprintf (info_host_c info) ("#include <assert.h>" ++ newline)%string w ;;
    w <- fprintf (info_host_c info) ("#include <stdio.h>" ++ newline)%string w ;;
    w <- fprintf (info_host_c info)
           ("#include " ++ dquote ++ ppcg_base_name name ++ dquote
            ++ newline ++ newline)%string w ;;
    w <- fprintf (info_kernel_h info)
           ("#if defined(__APPLE__)" ++ newline)%string w ;;
    w <- fprintf (info_kernel_h info)
           ("#include <OpenCL/opencl.h>" ++ newline)%string w ;;
    w <- fprintf (info_kernel_h info) ("#else" ++ newline)%string w ;;
    w <- fprintf (info_kernel_h info)
           ("#include <CL/opencl.h>" ++ newline)%string w ;;
    w <- fprintf (info_kernel_h info) ("#endif" ++ newline ++ newline)%string w ;;
    w <- fprintf (info_kernel_h info)
           ("cl_device_id opencl_create_device(int use_gpu);" ++ newline)%string
           w ;;
    w <- fprintf (info_kernel_h info)
           ("cl_program opencl_build_program(cl_context ctx, "
            ++ "cl_device_id dev, const char *filename, "
            ++ "const char *opencl_options);" ++ newline)%string w ;;
    w <- fprintf (info_kernel_h info)
           ("const char *opencl_error_string(cl_int error);" ++ newline)%string
           w ;;
    Returns (0%Z, info, w).

Definition generate_opencl (input : string) (output : option string)
    (w : world) : outcome (Z * world) :=
  let opencl := mk_info input output EmptyString None None None in
  '(r, opencl, w) <- opencl_open_files opencl w ;;
  let '(r, w) :=
    if (r >=? 0)%Z then generate_gpu opencl w else (r, w) in
  let w := opencl_close_files opencl w in
  Returns (r, w).

End Artifacts.

(** * The vocabulary of the specification

    The closed forms that the properties below are stated with: lists with
    separators, the work-size rule, the ordered argument list of a kernel,
    the statements printed for one array, and a few sample programs. *)

Definition separated (sep : event) (items : list (list event)) : list event :=
  match items with
  | [] => []
  | x :: xs => x ++ flat_map (fun y => sep :: y) xs
  end.

(** What a loop still has to print for [items] when [first] tells whether
    nothing was printed before. *)
Definition separated_from (sep : event) (first : bool)
    (items : list (list event)) : list event :=
  if first then separated sep items else flat_map (fun y => sep :: y) items.

Definition is_nil {A : Type} (l : list A) : bool :=
  match l with [] => true | _ => false end.

(** The rule of the specification for dimension [i], on a block-size
    vector [b] and a grid-size vector [g]. *)
Definition work_items_for_dim_spec (b : list Z) (g : list isl_pw_aff) (i : Z)
    : list event :=
  let B := Z.of_nat (length b) in
  let G := Z.of_nat (length g) in
  let b_i := nth (Z.to_nat i) b 0%Z in
  let g_i := nth (Z.to_nat i) g (mk_pw_aff EmptyString) in
  if (i <? Z.min B G)%Z then [Str "("; PwAff g_i; Str ") * "; Int b_i]
  else if (G <=? i)%Z then [Int b_i]
  else [PwAff g_i].

Definition total_work_items_spec (b : list Z) (g : list isl_pw_aff)
    : list event :=
  let B := Z.of_nat (length b) in
  let G := Z.of_nat (length g) in
  if (G <=? 0)%Z || (B <=? 0)%Z then [Str "1"]
  else
    separated (Str ", ")
      (map (fun i => work_items_for_dim_spec b g (Z.of_nat i))
         (seq 0 (Z.to_nat (Z.max B G)))).

(** The block sizes as the specification lists them. *)
Definition block_sizes_spec (b : list Z) : list event :=
  match b with
  | [] => [Str "1"]
  | _ => separated (Str ", ") (map (fun x => [Int x]) b)
  end.

(** An argument of a kernel: an array of the program, a parameter, or a
    host loop iterator. *)
Inductive kernel_argument : Type :=
  | ArrayArg (array : gpu_array_info)
  | ParamArg (name : string)
  | IteratorArg (name : string).

(** The array has a part in the footprint of the kernel that is not
    plainly empty. *)
Definition accessed (kernel : ppcg_kernel) (array : gpu_array_info) : bool :=
  negb (isl_set_plain_is_empty
          (isl_union_set_extract_set (kernel_arrays kernel) (array_space array))).

(** The ordered argument list of the specification: the accessed arrays in
    program order, the parameters of the footprint's space, the host loop
    iterators. *)
Definition ordered_arguments (prog : gpu_prog) (kernel : ppcg_kernel)
    : list kernel_argument :=
  map ArrayArg (filter (accessed kernel) (prog_array prog))
  ++ map ParamArg (space_params (isl_union_set_get_space (kernel_arrays kernel)))
  ++ map IteratorArg (space_set_dims (kernel_space kernel)).

Definition declaration_of (type : string) (arg : kernel_argument) : list event :=
  match arg with
  | ArrayArg array =>
      [Str "__global"; Str " "; Str (array_type array); Str " ";
       Str (array_name array)]
  | ParamArg name => [Str "int "; Str name]
  | IteratorArg name => [Str type; Str " "; Str name]
  end.

Definition call_of (arg : kernel_argument) : list event :=
  match arg with
  | ArrayArg array => [CallArgument array]
  | ParamArg name => [Str name]
  | IteratorArg name => [Str name]
  end.

Definition argument_name (arg : kernel_argument) : string :=
  match arg with
  | ArrayArg array => array_name array
  | ParamArg name => name
  | IteratorArg name => name
  end.

(** Bound by the address of a host variable rather than of a buffer. *)
Definition bound_by_value (arg : kernel_argument) : bool :=
  match arg with
  | ArrayArg array => gpu_array_is_read_only_scalar array
  | ParamArg _ => true
  | IteratorArg _ => true
  end.

(** The one statement that binds [arg] at position [k]. *)
Definition binding_of (kernel_id : Z) (k : Z) (arg : kernel_argument)
    : list event :=
  [StartLine; Str "openclCheckReturn(clSetKernelArg(kernel"; Int kernel_id;
   Str ", "; Int k; Str ", sizeof("]
  ++ (if bound_by_value arg then [Str (argument_name arg); Str "), &"]
      else [Str "cl_mem), (void *) &dev_"])
  ++ [Str (argument_name arg); Str "));"; EndLine].

(** The elements of a list paired with their positions, counted from [k]. *)
Fixpoint enumerate_from {A : Type} (k : Z) (l : list A) : list (Z * A) :=
  match l with
  | [] => []
  | a :: l => (k, a) :: enumerate_from (k + 1)%Z l
  end.

Definition bindings_of (kernel_id : Z) (args : list kernel_argument)
    : list event :=
  flat_map (fun ka => binding_of kernel_id (fst ka) (snd ka))
    (enumerate_from 0%Z args).

(** The work dimensionality: [n_block], or 1 when there is no block
    dimension. *)
Definition work_dim (kernel : ppcg_kernel) : Z := Z.max (n_block kernel) 1.

(** What follows the two size arrays at a launch site: the kernel object,
    the bindings, the launch, the release and the wait. *)
Definition launch_statements (prog : gpu_prog) (kernel : ppcg_kernel)
    : list event :=
  [StartLine; Str "cl_kernel kernel"; Int (kernel_id kernel);
   Str (" = clCreateKernel(program, " ++ dquote ++ "kernel")%string;
   Int (kernel_id kernel); Str (dquote ++ ", &err);")%string; EndLine;
   StartLine; Str "openclCheckReturn(err);"; EndLine]
  ++ bindings_of (kernel_id kernel) (ordered_arguments prog kernel)
  ++ [StartLine;
      Str "openclCheckReturn(clEnqueueNDRangeKernel(queue, kernel";
      Int (kernel_id kernel); Str ", "; Int (work_dim kernel);
      Str ", NULL, global_work_size, block_size, 0, NULL, NULL));"; EndLine;
      StartLine; Str "openclCheckReturn(clReleaseKernel(kernel";
      Int (kernel_id kernel); Str "));"; EndLine;
      StartLine; Str "clFinish(queue);"; EndLine;
      Indent (-2); StartLine; Str "}"; EndLine;
      StartLine; EndLine].

(** The part of a footprint that lies in the space of the array is not
    plainly empty. *)
Definition in_footprint (footprint : isl_union_set) (array : gpu_array_info)
    : bool :=
  negb (isl_set_plain_is_empty
          (isl_union_set_extract_set footprint (array_space array))).

Definition needs_device_buffer (array : gpu_array_info) : bool :=
  negb (gpu_array_is_read_only_scalar array).

Definition buffer_declaration (array : gpu_array_info) : list event :=
  [StartLine; Str "cl_mem dev_"; Str (array_name array); Str ";"; EndLine].

(** The size argument of an allocation. *)
Definition size_argument (array : gpu_array_info) : list event :=
  if is_array_positive_size_guard_trivial array then [ArraySize array]
  else [Str "max(sizeof("; Str (array_type array); Str "), ";
        ArraySize array; Str ")"].

(** The host pointer argument of an allocation. *)
Definition host_pointer_argument (array : gpu_array_info) (copy : bool)
    : list event :=
  if copy then
    [Str (if gpu_array_is_scalar array then ", &" else ", ");
     Str (array_name array)]
  else [Str ", NULL"].

Definition allocation_of (array : gpu_array_info) (copy : bool) : list event :=
  [StartBlock; StartLine; Str "dev_"; Str (array_name array);
   Str " = clCreateBuffer(context, "; Str "CL_MEM_READ_WRITE";
   Str (if copy then " | CL_MEM_COPY_HOST_PTR, " else ", ")]
  ++ size_argument array
  ++ host_pointer_argument array copy
  ++ [Str ", &err);"; EndLine;
      StartLine; Str "openclCheckReturn(err);"; EndLine; EndBlock].

Definition copy_statement (array : gpu_array_info) : list event :=
  [StartLine; Str "openclCheckReturn(clEnqueueReadBuffer(queue, dev_";
   Str (array_name array); Str ", CL_TRUE, 0, "; ArraySize array;
   Str (if gpu_array_is_scalar array then ", &" else ", ");
   Str (array_name array); Str ", 0, NULL, NULL));"; EndLine].

(** A copy-back, inside the positive-size guard of the array when that
    guard is not trivial. *)
Definition copy_back_of (prog : gpu_prog) (array : gpu_array_info)
    : list event :=
  if is_array_positive_size_guard_trivial array then copy_statement array
  else
    [GuardBegin (gpu_array_positive_size_guard array) (prog_context prog)]
    ++ copy_statement array ++ [GuardEnd].

Definition release_statement (array : gpu_array_info) : list event :=
  [StartLine; Str "openclCheckReturn(clReleaseMemObject(dev_";
   Str (array_name array); Str "));"; EndLine].

Definition empty_footprint : isl_union_set :=
  mk_union_set (mk_space [] []) (fun _ => mk_set true false).

Definition sample_tree : isl_ast_node := mk_ast_node (mk_ctx "int") "body".

Definition sample_prog (iterator_type : string) (arrays : list gpu_array_info)
    : gpu_prog :=
  mk_prog (mk_ctx iterator_type) (mk_set false true) arrays
    empty_footprint empty_footprint.

(** No block dimension, one grid dimension of size 10. *)
Definition kernel_b0_g10 : ppcg_kernel :=
  mk_kernel 0 [] [mk_pw_aff "10"] empty_footprint (mk_space [] [])
    sample_tree [].

(** One block dimension, two grid dimensions. *)
Definition kernel_b1_g2 : ppcg_kernel :=
  mk_kernel 0 [8%Z] [mk_pw_aff "n"; mk_pw_aff "m"] empty_footprint
    (mk_space [] []) sample_tree [].

(** Two block dimensions, two grid dimensions. *)
Definition kernel_b2_g2 : ppcg_kernel :=
  mk_kernel 0 [8%Z; 4%Z] [mk_pw_aff "10"; mk_pw_aff "5"] empty_footprint
    (mk_space [] []) sample_tree [].

(** A kernel whose only argument is the parameter [N]. *)
Definition kernel_param_N : ppcg_kernel :=
  mk_kernel 0 [] []
    (mk_union_set (mk_space ["N"] []) (fun _ => mk_set true false))
    (mk_space [] []) sample_tree [].

Definition positive_guard : isl_set := mk_set false false.
Definition universe : isl_set := mk_set false true.

(** A two-dimensional array whose extent depends on a parameter. *)
Definition array_A : gpu_array_info :=
  mk_array (mk_space ["n"] ["i"; "j"]) "float" "A" 2 false false
    positive_guard.

(** A read-only scalar. *)
Definition array_c : gpu_array_info :=
  mk_array (mk_space [] []) "int" "c" 0 true true universe.

(** An array of constant extent. *)
Definition array_T : gpu_array_info :=
  mk_array (mk_space [] ["k"]) "double" "T" 1 false false universe.

(** A footprint over the parameter [N] that holds every array but those
    of the one-dimensional space with dimension [k]. *)
Definition footprint_without_k : isl_union_set :=
  mk_union_set (mk_space ["N"] [])
    (fun sp =>
       mk_set
         (match space_set_dims sp with
          | [d] => String.eqb d "k"
          | _ => false
          end)
         false).

(** A footprint that holds the arrays of that space only. *)
Definition footprint_of_k : isl_union_set :=
  mk_union_set (mk_space ["N"] [])
    (fun sp =>
       mk_set
         (match space_set_dims sp with
          | [d] => negb (String.eqb d "k")
          | _ => true
          end)
         false).

(** A footprint that holds the arrays of two dimensions only. *)
Definition footprint_2d : isl_union_set :=
  mk_union_set (mk_space ["N"] [])
    (fun sp => mk_set (negb (Nat.eqb (length (space_set_dims sp)) 2)) false).

(** Three arrays: [T] is in the read footprint, [A] in the write
    footprint, the read-only scalar [c] in neither. *)
Definition prog_ATc : gpu_prog :=
  mk_prog (mk_ctx "long") universe [array_A; array_T; array_c]
    footprint_of_k footprint_2d.

(** A kernel on [A] and [c], inside the host loop [h0]. *)
Definition kernel_Ac : ppcg_kernel :=
  mk_kernel 3 [32%Z] [mk_pw_aff "n"] footprint_without_k
    (mk_space ["N"] ["h0"]) sample_tree [].

(** A file system in which every file can be opened but [name]. *)
Definition world_without (name : string) : world :=
  mk_world (fun n => negb (String.eqb n name)) [] [] [] [].

(** * The rest of opencl.c *)

(** ** Loops that return

    [for (i = lo; i < lo + n; ++i) if (...) return r;]  The body yields
    [Some r] where the source returns [r] from inside the loop. *)

Fixpoint for_loop_return {R : Type} (lo n : nat) (body : nat -> option R)
    : option R :=
  match n with
  | O => None
  | Datatypes.S n' =>
      match body lo with
      | Some r => Some r
      | None => for_loop_return (Datatypes.S lo) n' body
      end
  end.

(** ** Double precision *)

(** [strstr (haystack, needle) != NULL]. *)
Fixpoint strstr (haystack needle : string) : bool :=
  if String.prefix needle haystack then true
  else
    match haystack with
    | EmptyString => false
    | String _ rest => strstr rest needle
    end.

(** A type of the scop (pet): opencl.c reads its definition only. *)
Record pet_type : Type := mk_pet_type { type_definition : string }.

Record pet_scop : Type := mk_pet_scop { scop_types : list pet_type }.

Definition n_type (scop : pet_scop) : nat := length (scop_types scop).

(** [scop] is [prog->scop].  [strcmp (type, "double") == 0] is equality of
    the strings. *)
Definition any_double_elements (prog : gpu_prog) (scop : pet_scop) : Z :=
  match
    for_loop_return 0 (n_array prog)
      (fun i =>
         if String.eqb (array_type (array_at prog i)) "double" then Some 1%Z
         else None)
  with
  | Some r => r
  | None =>
      match
        for_loop_return 0 (n_type scop)
          (fun i =>
             let type := nth i (scop_types scop) (mk_pet_type EmptyString) in
             if strstr (type_definition type) "double" then Some 1%Z
             else None)
      with
      | Some r => r
      | None => 0%Z
      end
  end.

Definition opencl_enable_double_support (p : isl_printer) : isl_printer :=
  let p := isl_printer_start_line p in
  let p := isl_printer_print_str p
             "#pragma OPENCL EXTENSION cl_khr_fp64 : enable" in
  let p := isl_printer_end_line p in
  let p := isl_printer_start_line p in
  isl_printer_end_line p.

(** ** Set-up and release of the OpenCL objects *)

(** The options that opencl.c reads. *)
Record ppcg_options : Type := mk_options {
  opencl_use_gpu : Z;
  opencl_compiler_options : option string
}.

(** [options] is [info->options]. *)
Definition opencl_setup (p : isl_printer) (input : string)
    (info : opencl_info) (options : ppcg_options) : isl_printer :=
  let p := isl_printer_start_line p in
  let p := isl_printer_print_str p "cl_device_id device;" in
  let p := isl_printer_end_line p in
  let p := isl_printer_start_line p in
  let p := isl_printer_print_str p "cl_context context;" in
  let p := isl_printer_end_line p in
  let p := isl_printer_start_line p in
  let p := isl_printer_print_str p "cl_program program;" in
  let p := isl_printer_end_line p in
  let p := isl_printer_start_line p in
  let p := isl_printer_print_str p "cl_command_queue queue;" in
  let p := isl_printer_end_line p in
  let p := isl_printer_start_line p in
  let p := isl_printer_print_str p "cl_int err;" in
  let p := isl_printer_end_line p in
  let p := isl_printer_start_line p in
  let p := isl_printer_print_str p "device = opencl_create_device(" in
  let p := isl_printer_print_int p (opencl_use_gpu options) in
  let p := isl_printer_print_str p ");" in
  let p := isl_printer_end_line p in
  let p := isl_printer_start_line p in
  let p := isl_printer_print_str p
             "context = clCreateContext(NULL, 1, &device, NULL, NULL, &err);" in
  let p := isl_printer_end_line p in
  let p := isl_printer_start_line p in
  let p := isl_printer_print_str p "openclCheckReturn(err);" in
  let p := isl_printer_end_line p in
  let p := isl_printer_start_line p in
  let p := isl_printer_print_str p
             "queue = clCreateCommandQueue(context, device, 0, &err);" in
  let p := isl_printer_end_line p in
  let p := isl_printer_start_line p in
  let p := isl_printer_print_str p "openclCheckReturn(err);" in
  let p := isl_printer_end_line p in

  let p := isl_printer_start_line p in
  let p := isl_printer_print_str p
             ("program = opencl_build_program(context, device, "
              ++ dquote)%string in
  let p := isl_printer_print_str p (info_kernel_c_name info) in
  let p := isl_printer_print_str p (dquote ++ ", " ++ dquote)%string in
  let p :=
    match opencl_compiler_options options with
    | Some compiler_options => isl_printer_print_str p compiler_options
    | None => p
    end in
  let p := isl_printer_print_str p (dquote ++ ");")%string in
  let p := isl_printer_end_line p in
  let p := isl_printer_start_line p in
  isl_printer_end_line p.

Definition opencl_release_cl_objects (p : isl_printer) (info : opencl_info)
    : isl_printer :=
  let p := isl_printer_start_line p in
  let p := isl_printer_print_str p
             "openclCheckReturn(clReleaseCommandQueue(queue));" in
  let p := isl_printer_end_line p in
  let p := isl_printer_start_line p in
  let p := isl_printer_print_str p
             "openclCheckReturn(clReleaseProgram(program));" in
  let p := isl_printer_end_line p in
  let p := isl_printer_start_line p in
  let p := isl_printer_print_str p
             "openclCheckReturn(clReleaseContext(context));" in
  isl_printer_end_line p.

(** * More vocabulary *)

(** ** Counting initialisers *)

Definition is_separator (e : event) : bool :=
  match e with
  | Str s => String.eqb s ", "
  | _ => false
  end.

(** The number of entries of a printed list: one more than it has
    separators. *)
Definition initialisers (l : list event) : nat :=
  Datatypes.S (length (filter is_separator l)).

(** ** The text of a kernel *)

(** One line that declares [name0 .. name(n-1)], each set to the result of
    the call that [call] opens on its own index. *)
Definition iterator_line (type name call : string) (n : nat) : list event :=
  [StartLine; Str type; Str " "]
  ++ separated (Str ", ")
       (map (fun i =>
               [Str name; Int (Z.of_nat i); Str call; Int (Z.of_nat i);
                Str ")"])
          (seq 0 n))
  ++ [Str ";"; EndLine].

Definition kernel_iterators_of (kernel : ppcg_kernel) : list event :=
  let type :=
    isl_options_get_ast_iterator_type
      (isl_ast_node_get_ctx (kernel_tree kernel)) in
  (match grid_size kernel with
   | [] => []
   | _ => iterator_line type "b" " = get_group_id(" (length (grid_size kernel))
   end)
  ++ (match block_dim kernel with
      | [] => []
      | _ => iterator_line type "t" " = get_local_id(" (length (block_dim kernel))
      end).

Definition kernel_var_of (var : ppcg_kernel_var) : list event :=
  [StartLine]
  ++ (match var_type var with
      | ppcg_access_shared => [Str "__local "]
      | _ => []
      end)
  ++ [Str (array_type (var_array var)); Str " "; Str (var_name var)]
  ++ flat_map (fun j => [Str "["; Val (nth j (var_size var) 0%Z); Str "]"])
       (seq 0 (array_n_index (var_array var)))
  ++ [Str ";"; EndLine].

(** ** The names of the output files *)

Section Names.

Variable ppcg_extract_base_name : string -> string.

(** What [name] holds in its first [len] characters. *)
Definition output_base (info : opencl_info) : string :=
  match info_output info with
  | Some output =>
      substring 0
        (match strrchr output "." with
         | Some k => k
         | None => String.length output
         end)
        output
  | None => ppcg_extract_base_name (info_input info)
  end.

(** The number [len] of those characters. *)
Definition stem_length (info : opencl_info) : nat :=
  match info_output info with
  | Some output =>
      match strrchr output "." with
      | Some k => k
      | None => String.length output
      end
  | None => String.length (ppcg_extract_base_name (info_input info))
  end.

Definition host_c_name (info : opencl_info) : string :=
  match info_output info with
  | Some output => output
  | None => (output_base info ++ "_host.c")%string
  end.

Definition kernel_c_name (info : opencl_info) : string :=
  (output_base info ++ "_kernel.cl")%string.

Definition kernel_h_name (info : opencl_info) : string :=
  (output_base info ++ "_kernel.h")%string.

End Names.

(** The handle that opening [name] yields. *)
Definition try_open (w : world) (name : string) : option FILE :=
  if can_open w name then Some name else None.

Definition opened (files : list (option FILE)) : list FILE :=
  flat_map (fun file => match file with Some f => [f] | None => [] end) files.

Definition failure_message (name : string) : string :=
  ("Failed to open " ++ dquote ++ name ++ dquote ++ " for writing"
   ++ newline)%string.

(** The messages for those of [names] that cannot be opened. *)
Definition failures (w : world) (names : list string) : list string :=
  flat_map (fun name => if can_open w name then [] else [failure_message name])
    names.

(** The prologue of the host file and of the header. *)
Definition prologue (host_c kernel_h : FILE) (header_name : string)
    : list (FILE * string) :=
  [(host_c, ("#include <assert.h>" ++ newline)%string);
   (host_c, ("#include <stdio.h>" ++ newline)%string);
   (host_c, ("#include " ++ dquote ++ header_name ++ dquote
             ++ newline ++ newline)%string);
   (kernel_h, ("#if defined(__APPLE__)" ++ newline)%string);
   (kernel_h, ("#include <OpenCL/opencl.h>" ++ newline)%string);
   (kernel_h, ("#else" ++ newline)%string);
   (kernel_h, ("#include <CL/opencl.h>" ++ newline)%string);
   (kernel_h, ("#endif" ++ newline ++ newline)%string);
   (kernel_h, ("cl_device_id opencl_create_device(int use_gpu);"
               ++ newline)%string);
   (kernel_h, ("cl_program opencl_build_program(cl_context ctx, "
               ++ "cl_device_id dev, const char *filename, "
               ++ "const char *opencl_options);" ++ newline)%string);
   (kernel_h, ("const char *opencl_error_string(cl_int error);"
               ++ newline)%string)].

(** The lines that [opencl_setup] prints before it builds the program. *)
Definition setup_declarations (use_gpu : Z) : list event :=
  [StartLine; Str "cl_device_id device;"; EndLine;
   StartLine; Str "cl_context context;"; EndLine;
   StartLine; Str "cl_program program;"; EndLine;
   StartLine; Str "cl_command_queue queue;"; EndLine;
   StartLine; Str "cl_int err;"; EndLine;
   StartLine; Str "device = opencl_create_device("; Int use_gpu; Str ");";
   EndLine;
   StartLine;
   Str "context = clCreateContext(NULL, 1, &device, NULL, NULL, &err);";
   EndLine;
   StartLine; Str "openclCheckReturn(err);"; EndLine;
   StartLine; Str "queue = clCreateCommandQueue(context, device, 0, &err);";
   EndLine;
   StartLine; Str "openclCheckReturn(err);"; EndLine].

(** ** Indentation *)

(** The indentation that a trace leaves the printer with, relative to
    where it started: the sum of the steps of [isl_printer_indent]. *)
Fixpoint indentation (t : list event) : Z :=
  match t with
  | [] => 0%Z
  | Indent n :: t => (n + indentation t)%Z
  | _ :: t => indentation t
  end.

(** The steps themselves, in the order in which they are made. *)
Fixpoint indent_steps (t : list event) : list Z :=
  match t with
  | [] => []
  | Indent n :: t => n :: indent_steps t
  | _ :: t => indent_steps t
  end.

(** ** More samples *)

(** A file system in which every file can be opened. *)
Definition world_open : world := mk_world (fun _ => true) [] [] [] [].

Definition info_out_c : opencl_info :=
  mk_info "in.c" (Some "out.c") EmptyString None None None.

(** A kernel with two grid dimensions, one block dimension and a shared
    tile of [A]. *)
Definition kernel_tiled : ppcg_kernel :=
  mk_kernel 1 [16%Z] [mk_pw_aff "n"; mk_pw_aff "m"] footprint_without_k
    (mk_space ["N"] []) sample_tree
    [mk_kernel_var array_A ppcg_access_shared "shared_A" [16%Z; 32%Z]].

(** A program in which the write footprint holds the read-only scalar. *)
Definition prog_c_written : gpu_prog :=
  mk_prog (mk_ctx "int") universe [array_A; array_c]
    empty_footprint footprint_without_k.

(** ** Tactics

    Printer calls only ever append: unfold them and bring the appended
    lists into one shape. *)

Ltac unfold_printer :=
  unfold gpu_array_info_print_declaration_argument in *;
  unfold isl_printer_print_str, isl_printer_print_int, isl_printer_start_line,
    isl_printer_end_line, isl_printer_indent, isl_printer_print_pw_aff,
    isl_printer_print_val, isl_ast_node_print,
    ppcg_start_block, ppcg_end_block, gpu_array_info_print_size,
    gpu_array_info_print_call_argument, gpu_print_macros, emit in *.

Ltac appended :=
  unfold_printer; cbn [app negb]; repeat rewrite <- app_assoc; cbn [app negb].

(** * Properties *)

(** ** Loops as folds *)

Lemma for_loop_ext {S : Type} (body body' : nat -> S -> S) :
  (forall i s, body i s = body' i s) ->
  forall n lo s, for_loop lo n body s = for_loop lo n body' s.
Proof.
  intros Hext n. induction n as [|n IH]; intros lo s; simpl.
  - reflexivity.
  - rewrite Hext. apply IH.
Qed.

Lemma for_loop_seq {S : Type} (body : nat -> S -> S) :
  forall n lo s,
    for_loop lo n body s = fold_left (fun s i => body i s) (seq lo n) s.
Proof.
  induction n as [|n IH]; intros lo s; simpl.
  - reflexivity.
  - apply IH.
Qed.

(** A loop that reads [l[i]] for every index of [l] is a fold over [l]. *)
Lemma for_loop_nth {S A : Type} (d : A) (g : A -> S -> S) :
  forall (l pre : list A) (s : S),
    for_loop (length pre) (length l) (fun i s => g (nth i (pre ++ l) d) s) s
    = fold_left (fun s a => g a s) l s.
Proof.
  induction l as [|a l IH]; intros pre s; simpl.
  - reflexivity.
  - rewrite app_nth2 by lia. rewrite Nat.sub_diag. simpl.
    specialize (IH (pre ++ [a]) (g a s)).
    rewrite length_app in IH. simpl in IH.
    rewrite Nat.add_1_r in IH.
    rewrite <- app_assoc in IH. simpl in IH. exact IH.
Qed.

Lemma for_loop_list {S A : Type} (d : A) (g : A -> S -> S) (l : list A) (s : S) :
  for_loop 0 (length l) (fun i s => g (nth i l d) s) s
  = fold_left (fun s a => g a s) l s.
Proof. exact (for_loop_nth d g l [] s). Qed.

(** ** Lists with separators *)

Lemma separated_from_app sep first xs ys :
  separated_from sep first (xs ++ ys)
  = separated_from sep first xs ++ separated_from sep (first && is_nil xs) ys.
Proof.
  destruct first; simpl.
  - destruct xs as [|x xs]; simpl.
    + reflexivity.
    + rewrite flat_map_app, app_assoc. reflexivity.
  - unfold separated_from. apply flat_map_app.
Qed.

(** The shape shared by the argument loops: an element is skipped, or
    printed after a separator unless it is the first. *)
Lemma fold_separated {A : Type} (sep : event) (keep : A -> bool)
    (render : A -> list event) :
  forall (l : list A) (p : isl_printer) (first : bool),
    fold_left
      (fun (st : isl_printer * bool) a =>
         let '(p, first) := st in
         if keep a then
           ((if negb first then p ++ [sep] else p) ++ render a, false)
         else (p, first))
      l (p, first)
    = (p ++ separated_from sep first (map render (filter keep l)),
       first && is_nil (filter keep l)).
Proof.
  induction l as [|a l IH]; intros p first; simpl.
  - destruct first; simpl; rewrite app_nil_r, ?andb_true_r; reflexivity.
  - destruct (keep a); simpl.
    + rewrite IH. rewrite andb_false_r. f_equal.
      destruct first; simpl; rewrite <- !app_assoc; reflexivity.
    + apply IH.
Qed.

(** A loop that prints a separator before every item but the one of index
    zero. *)
Lemma for_loop_separated (sep : event) (item : nat -> list event) :
  forall n lo p,
    for_loop lo n
      (fun i p => (if negb (Nat.eqb i 0) then p ++ [sep] else p) ++ item i) p
    = p ++ separated_from sep (Nat.eqb lo 0) (map item (seq lo n)).
Proof.
  induction n as [|n IH]; intros lo p; simpl.
  - destruct (Nat.eqb lo 0); simpl; rewrite app_nil_r; reflexivity.
  - rewrite IH. simpl. destruct lo; simpl; rewrite <- !app_assoc; reflexivity.
Qed.

(** ** Work sizes *)

Lemma min_is_Zmin a b : min a b = Z.min a b.
Proof. unfold min. destruct (Z.ltb_spec a b); lia. Qed.

Lemma max_is_Zmax a b : max a b = Z.max a b.
Proof. unfold max. rewrite Z.gtb_ltb. destruct (Z.ltb_spec b a); lia. Qed.

Lemma work_items_for_dim_eq p kernel i :
  opencl_print_total_number_of_work_items_for_dim p kernel i
  = p ++ work_items_for_dim_spec (block_dim kernel) (grid_size kernel) i.
Proof.
  unfold opencl_print_total_number_of_work_items_for_dim,
    work_items_for_dim_spec, isl_multi_pw_aff_dim, n_block, block_dim_at,
    isl_multi_pw_aff_get_pw_aff.
  rewrite min_is_Zmin, Z.geb_leb, (Z.min_comm (Z.of_nat (length (grid_size kernel)))).
  destruct (_ <? _)%Z; [|destruct (_ <=? _)%Z]; appended; reflexivity.
Qed.

Lemma total_work_items_eq p kernel :
  opencl_print_total_number_of_work_items_as_list p kernel
  = p ++ total_work_items_spec (block_dim kernel) (grid_size kernel).
Proof.
  unfold opencl_print_total_number_of_work_items_as_list, total_work_items_spec,
    isl_multi_pw_aff_dim, n_block.
  destruct (_ || _); [reflexivity|].
  rewrite max_is_Zmax, Z.max_comm.
  rewrite for_loop_ext with
    (body' := fun i p =>
       (if negb (Nat.eqb i 0) then p ++ [Str ", "] else p)
       ++ work_items_for_dim_spec (block_dim kernel) (grid_size kernel)
            (Z.of_nat i)).
  - apply for_loop_separated.
  - intros i q. rewrite work_items_for_dim_eq. f_equal.
    destruct i; reflexivity.
Qed.

Lemma map_nth_seq {A : Type} (d : A) (l : list A) :
  map (fun i => nth i l d) (seq 0 (length l)) = l.
Proof.
  induction l as [|a l IH]; simpl.
  - reflexivity.
  - f_equal. rewrite <- seq_shift, map_map. exact IH.
Qed.

Lemma block_sizes_eq p kernel :
  opencl_print_block_sizes p kernel = p ++ block_sizes_spec (block_dim kernel).
Proof.
  unfold opencl_print_block_sizes, block_sizes_spec, n_block, block_dim_at.
  destruct (block_dim kernel) as [|x b] eqn:E; [reflexivity|].
  replace (Z.of_nat (length (x :: b)) >? 0)%Z with true
    by (symmetry; apply Z.gtb_lt; simpl; lia).
  rewrite Nat2Z.id.
  rewrite for_loop_ext with
    (body' := fun i p =>
       (if negb (Nat.eqb i 0) then p ++ [Str ", "] else p)
       ++ (fun y => [Int y]) (nth i (x :: b) 0%Z)).
  - rewrite for_loop_separated. simpl Nat.eqb. unfold separated_from.
    rewrite <- (map_map (fun i => nth i (x :: b) 0%Z) (fun y => [Int y])).
    rewrite map_nth_seq. reflexivity.
  - intros i q. rewrite Nat2Z.id. reflexivity.
Qed.

(** ** Kernel arguments *)

Lemma enumerate_from_app {A : Type} (xs ys : list A) :
  forall k,
    enumerate_from k (xs ++ ys)
    = enumerate_from k xs ++ enumerate_from (k + Z.of_nat (length xs))%Z ys.
Proof.
  induction xs as [|x xs IH]; intros k; simpl.
  - rewrite Z.add_0_r. reflexivity.
  - rewrite IH. do 3 f_equal. lia.
Qed.

Lemma enumerate_from_map {A B : Type} (f : A -> B) (l : list A) :
  forall k,
    enumerate_from k (map f l)
    = map (fun ka => (fst ka, f (snd ka))) (enumerate_from k l).
Proof.
  induction l as [|a l IH]; intros k; simpl.
  - reflexivity.
  - rewrite IH. reflexivity.
Qed.

Lemma filter_all {A : Type} (l : list A) : filter (fun _ => true) l = l.
Proof. induction l as [|a l IH]; simpl; [|rewrite IH]; reflexivity. Qed.

Lemma is_nil_map {A B : Type} (f : A -> B) (l : list A) :
  is_nil (map f l) = is_nil l.
Proof. destruct l; reflexivity. Qed.

Lemma set_kernel_argument_eq p kernel_id arg k :
  opencl_set_kernel_argument p kernel_id (argument_name arg) k
    (bound_by_value arg)
  = p ++ binding_of kernel_id k arg.
Proof.
  unfold opencl_set_kernel_argument, binding_of.
  destruct (bound_by_value arg); appended; reflexivity.
Qed.

(** The shape shared by the binding loops: an element is skipped, or bound
    at the running position, which then moves on by one. *)
Lemma fold_numbered {A : Type} (kernel_id : Z) (keep : A -> bool)
    (arg : A -> kernel_argument) :
  forall (l : list A) (p : isl_printer) (k : Z),
    fold_left
      (fun (st : isl_printer * Z) a =>
         let '(p, k) := st in
         if keep a then (p ++ binding_of kernel_id k (arg a), (k + 1)%Z)
         else (p, k))
      l (p, k)
    = (p ++ flat_map (fun ka => binding_of kernel_id (fst ka) (snd ka))
              (enumerate_from k (map arg (filter keep l))),
       (k + Z.of_nat (length (filter keep l)))%Z).
Proof.
  induction l as [|a l IH]; intros p k; simpl.
  - rewrite app_nil_r, Z.add_0_r. reflexivity.
  - destruct (keep a); cbn [filter map enumerate_from flat_map length fst snd].
    + rewrite IH, <- app_assoc. f_equal. lia.
    + apply IH.
Qed.

Lemma set_kernel_arguments_eq p prog kernel :
  opencl_set_kernel_arguments p prog kernel
  = p ++ bindings_of (kernel_id kernel) (ordered_arguments prog kernel).
Proof.
  unfold opencl_set_kernel_arguments, bindings_of, ordered_arguments,
    n_array, isl_space_dim.
  set (id := kernel_id kernel).
  set (sp := isl_union_set_get_space (kernel_arrays kernel)).
  pose (step := fun (A : Type) (keep : A -> bool) (arg : A -> kernel_argument)
                  (a : A) (st : isl_printer * Z) =>
                  let '(p, k) := st in
                  if keep a then (p ++ binding_of id k (arg a), (k + 1)%Z)
                  else (p, k)).
  rewrite for_loop_ext with
    (body' := fun i st =>
       step _ (accessed kernel) ArrayArg (nth i (prog_array prog) null_array) st).
  2:{ intros i [q k]. unfold step, array_at, accessed.
      destruct (isl_set_plain_is_empty _); simpl; [reflexivity|].
      f_equal. apply (set_kernel_argument_eq q id (ArrayArg _) k). }
  rewrite (for_loop_list null_array (step _ (accessed kernel) ArrayArg)).
  unfold step at 1. rewrite (fold_numbered id (accessed kernel) ArrayArg).
  rewrite for_loop_ext with
    (body' := fun i st =>
       step _ (fun _ => true) ParamArg
         (nth i (space_dims sp isl_dim_param) EmptyString) st).
  2:{ intros i [q k]. unfold step. simpl. f_equal.
      apply (set_kernel_argument_eq q id (ParamArg _) k). }
  rewrite (for_loop_list EmptyString (step _ (fun _ => true) ParamArg)).
  unfold step at 1. rewrite (fold_numbered id (fun _ => true) ParamArg).
  rewrite for_loop_ext with
    (body' := fun i st =>
       step _ (fun _ => true) IteratorArg
         (nth i (space_dims (kernel_space kernel) isl_dim_set) EmptyString) st).
  2:{ intros i [q k]. unfold step. simpl. f_equal.
      apply (set_kernel_argument_eq q id (IteratorArg _) k). }
  rewrite (for_loop_list EmptyString (step _ (fun _ => true) IteratorArg)).
  unfold step. rewrite (fold_numbered id (fun _ => true) IteratorArg).
  rewrite !filter_all. simpl space_dims.
  rewrite !enumerate_from_app, !flat_map_app, !length_map, <- !app_assoc.
  rewrite Z.add_0_l. reflexivity.
Qed.

Lemma print_kernel_arguments_eq p prog kernel (types : bool) :
  opencl_print_kernel_arguments p prog kernel types
  = p ++ separated (Str ", ")
           (map (fun arg =>
                   if types then
                     declaration_of
                       (isl_options_get_ast_iterator_type (prog_ctx prog)) arg
                   else call_of arg)
              (ordered_arguments prog kernel)).
Proof.
  unfold opencl_print_kernel_arguments, ordered_arguments, n_array,
    isl_space_dim.
  set (type := isl_options_get_ast_iterator_type (prog_ctx prog)).
  set (sp := isl_union_set_get_space (kernel_arrays kernel)).
  set (text := fun arg => if types then declaration_of type arg else call_of arg).
  pose (step := fun (A : Type) (keep : A -> bool) (arg : A -> kernel_argument)
                  (a : A) (st : isl_printer * bool) =>
                  let '(p, first) := st in
                  if keep a then
                    ((if negb first then p ++ [Str ", "] else p)
                     ++ text (arg a), false)
                  else (p, first)).
  rewrite for_loop_ext with
    (body' := fun i st =>
       step _ (accessed kernel) ArrayArg (nth i (prog_array prog) null_array) st).
  2:{ intros i [q first]. unfold step, text, array_at, accessed.
      destruct (isl_set_plain_is_empty _); simpl; [reflexivity|].
      destruct first, types; appended; reflexivity. }
  rewrite (for_loop_list null_array (step _ (accessed kernel) ArrayArg)).
  unfold step at 1.
  rewrite (fold_separated (Str ", ") (accessed kernel)
             (fun a => text (ArrayArg a))).
  rewrite for_loop_ext with
    (body' := fun i st =>
       step _ (fun _ => true) ParamArg
         (nth i (space_dims sp isl_dim_param) EmptyString) st).
  2:{ intros i [q first]. unfold step, text, isl_space_get_dim_name.
      destruct first, types; appended; reflexivity. }
  rewrite (for_loop_list EmptyString (step _ (fun _ => true) ParamArg)).
  unfold step at 1.
  rewrite (fold_separated (Str ", ") (fun _ => true)
             (fun a => text (ParamArg a))).
  rewrite for_loop_ext with
    (body' := fun i st =>
       step _ (fun _ => true) IteratorArg
         (nth i (space_dims (kernel_space kernel) isl_dim_set) EmptyString) st).
  2:{ intros i [q first]. unfold step, text, isl_space_get_dim_name.
      destruct first, types; appended; reflexivity. }
  rewrite (for_loop_list EmptyString (step _ (fun _ => true) IteratorArg)).
  unfold step.
  rewrite (fold_separated (Str ", ") (fun _ => true)
             (fun a => text (IteratorArg a))).
  rewrite !filter_all. simpl space_dims.
  change (separated (Str ", ")) with (separated_from (Str ", ") true).
  rewrite !map_app, !separated_from_app, !map_map, !is_nil_map, <- !app_assoc.
  simpl andb. reflexivity.
Qed.

(** ** The launch site *)

Lemma print_work_dim p kernel :
  (if (n_block kernel >? 0)%Z then isl_printer_print_int p (n_block kernel)
   else isl_printer_print_int p 1)
  = p ++ [Int (work_dim kernel)].
Proof.
  unfold work_dim, isl_printer_print_int, emit.
  rewrite Z.gtb_ltb.
  destruct (Z.ltb_spec 0 (n_block kernel)); repeat f_equal; lia.
Qed.

Lemma host_user_eq p prog kernel_c kernel :
  fst (opencl_print_host_user p prog kernel_c kernel)
  = p ++ [StartLine; Str "{"; EndLine; Indent 2;
          StartLine; Str "size_t global_work_size["; Int (work_dim kernel);
          Str "] = {"]
      ++ total_work_items_spec (block_dim kernel) (grid_size kernel)
      ++ [Str "};"; EndLine;
          StartLine; Str "size_t block_size["; Int (work_dim kernel);
          Str "] = {"]
      ++ block_sizes_spec (block_dim kernel)
      ++ [Str "};"; EndLine]
      ++ launch_statements prog kernel.
Proof.
  unfold opencl_print_host_user, launch_statements. cbv zeta. simpl fst.
  rewrite !print_work_dim, set_kernel_arguments_eq, block_sizes_eq,
    total_work_items_eq.
  appended. reflexivity.
Qed.

(** ** Device arrays *)

(** The shape shared by the loops over the arrays: an array is skipped, or
    a statement is printed for it. *)
Lemma fold_statements {A : Type} (keep : A -> bool) (stmt : A -> list event) :
  forall (l : list A) (p : isl_printer),
    fold_left (fun p a => if keep a then p ++ stmt a else p) l p
    = p ++ flat_map stmt (filter keep l).
Proof.
  induction l as [|a l IH]; intros p; simpl.
  - rewrite app_nil_r. reflexivity.
  - rewrite IH. destruct (keep a); simpl.
    + rewrite <- app_assoc. reflexivity.
    + reflexivity.
Qed.

Lemma array_loop (keep : gpu_array_info -> bool)
    (stmt : gpu_array_info -> list event)
    (body : nat -> isl_printer -> isl_printer) prog p :
  (forall i q,
     body i q = if keep (array_at prog i) then q ++ stmt (array_at prog i)
                else q) ->
  for_loop 0 (n_array prog) body p
  = p ++ flat_map stmt (filter keep (prog_array prog)).
Proof.
  intros Hbody.
  rewrite for_loop_ext with
    (body' := fun i q =>
       (fun a q => if keep a then q ++ stmt a else q)
         (nth i (prog_array prog) null_array) q)
    by exact Hbody.
  unfold n_array.
  rewrite (for_loop_list null_array
             (fun a q => if keep a then q ++ stmt a else q)).
  apply fold_statements.
Qed.

Lemma declare_device_arrays_eq p prog :
  opencl_declare_device_arrays p prog
  = p ++ flat_map buffer_declaration
           (filter needs_device_buffer (prog_array prog))
      ++ [StartLine; EndLine].
Proof.
  unfold opencl_declare_device_arrays.
  rewrite (array_loop needs_device_buffer buffer_declaration).
  - appended. reflexivity.
  - intros i q. unfold needs_device_buffer, buffer_declaration.
    destruct (gpu_array_is_read_only_scalar _); appended; reflexivity.
Qed.

Lemma allocate_device_array_eq p array copy :
  allocate_device_array p array copy = p ++ allocation_of array copy.
Proof.
  unfold allocate_device_array, allocation_of, size_argument,
    host_pointer_argument.
  destruct copy, (is_array_positive_size_guard_trivial array),
    (gpu_array_is_scalar array); appended; reflexivity.
Qed.

Lemma allocate_device_arrays_eq p prog :
  opencl_allocate_device_arrays p prog
  = p ++ flat_map (fun a => allocation_of a (in_footprint (prog_copy_in prog) a))
           (filter needs_device_buffer (prog_array prog))
      ++ [StartLine; EndLine].
Proof.
  unfold opencl_allocate_device_arrays.
  rewrite (array_loop needs_device_buffer
             (fun a => allocation_of a (in_footprint (prog_copy_in prog) a))).
  - appended. reflexivity.
  - intros i q. unfold needs_device_buffer. cbv zeta.
    destruct (gpu_array_is_read_only_scalar _); simpl; [reflexivity|].
    apply allocate_device_array_eq.
Qed.

Lemma copy_array_from_device_eq p array :
  copy_array_from_device p array = p ++ copy_statement array.
Proof.
  unfold copy_array_from_device, copy_statement.
  destruct (gpu_array_is_scalar array); appended; reflexivity.
Qed.

Lemma guarded_copy_eq p prog array :
  ppcg_print_guarded p (gpu_array_positive_size_guard array)
    (prog_context prog) copy_array_from_device array
  = p ++ copy_back_of prog array.
Proof.
  unfold ppcg_print_guarded, copy_back_of, is_array_positive_size_guard_trivial.
  destruct (isl_set_plain_is_universe _).
  - apply copy_array_from_device_eq.
  - rewrite copy_array_from_device_eq. appended. reflexivity.
Qed.

Lemma copy_arrays_from_device_eq p prog :
  opencl_copy_arrays_from_device p prog
  = p ++ flat_map (copy_back_of prog)
           (filter (in_footprint (prog_copy_out prog)) (prog_array prog))
      ++ [StartLine; EndLine].
Proof.
  unfold opencl_copy_arrays_from_device.
  rewrite (array_loop (in_footprint (prog_copy_out prog)) (copy_back_of prog)).
  - appended. reflexivity.
  - intros i q. unfold in_footprint. cbv zeta.
    destruct (isl_set_plain_is_empty _); simpl; [reflexivity|].
    apply guarded_copy_eq.
Qed.

Lemma release_device_arrays_eq p prog :
  opencl_release_device_arrays p prog
  = p ++ flat_map release_statement
           (filter needs_device_buffer (prog_array prog)).
Proof.
  unfold opencl_release_device_arrays.
  apply (array_loop needs_device_buffer release_statement).
  intros i q. unfold needs_device_buffer, release_device_array, release_statement.
  destruct (gpu_array_is_read_only_scalar _); appended; reflexivity.
Qed.

(** ** The model at work *)

Example kernel_header_Ac :
  opencl_print_kernel_header [] prog_ATc kernel_Ac
  = [StartLine; Str "__kernel void kernel"; Int 3; Str "(";
     Str "__global"; Str " "; Str "float"; Str " "; Str "A"; Str ", ";
     Str "__global"; Str " "; Str "int"; Str " "; Str "c"; Str ", ";
     Str "int "; Str "N"; Str ", ";
     Str "long"; Str " "; Str "h0";
     Str ")"; EndLine].
Proof. reflexivity. Qed.

Example kernel_call_Ac :
  opencl_print_kernel_arguments [] prog_ATc kernel_Ac false
  = [CallArgument array_A; Str ", "; CallArgument array_c; Str ", ";
     Str "N"; Str ", "; Str "h0"].
Proof. reflexivity. Qed.

Example kernel_bindings_Ac :
  opencl_set_kernel_arguments [] prog_ATc kernel_Ac
  = [StartLine; Str "openclCheckReturn(clSetKernelArg(kernel"; Int 3;
     Str ", "; Int 0; Str ", sizeof("; Str "cl_mem), (void *) &dev_";
     Str "A"; Str "));"; EndLine;
     StartLine; Str "openclCheckReturn(clSetKernelArg(kernel"; Int 3;
     Str ", "; Int 1; Str ", sizeof("; Str "c"; Str "), &";
     Str "c"; Str "));"; EndLine;
     StartLine; Str "openclCheckReturn(clSetKernelArg(kernel"; Int 3;
     Str ", "; Int 2; Str ", sizeof("; Str "N"; Str "), &";
     Str "N"; Str "));"; EndLine;
     StartLine; Str "openclCheckReturn(clSetKernelArg(kernel"; Int 3;
     Str ", "; Int 3; Str ", sizeof("; Str "h0"; Str "), &";
     Str "h0"; Str "));"; EndLine].
Proof. reflexivity. Qed.

Example declarations_ATc :
  opencl_declare_device_arrays [] prog_ATc
  = [StartLine; Str "cl_mem dev_"; Str "A"; Str ";"; EndLine;
     StartLine; Str "cl_mem dev_"; Str "T"; Str ";"; EndLine;
     StartLine; EndLine].
Proof. reflexivity. Qed.

Example allocations_ATc :
  opencl_allocate_device_arrays [] prog_ATc
  = [StartBlock; StartLine; Str "dev_"; Str "A";
     Str " = clCreateBuffer(context, "; Str "CL_MEM_READ_WRITE"; Str ", ";
     Str "max(sizeof("; Str "float"; Str "), "; ArraySize array_A; Str ")";
     Str ", NULL"; Str ", &err);"; EndLine;
     StartLine; Str "openclCheckReturn(err);"; EndLine; EndBlock;
     StartBlock; StartLine; Str "dev_"; Str "T";
     Str " = clCreateBuffer(context, "; Str "CL_MEM_READ_WRITE";
     Str " | CL_MEM_COPY_HOST_PTR, "; ArraySize array_T;
     Str ", "; Str "T"; Str ", &err);"; EndLine;
     StartLine; Str "openclCheckReturn(err);"; EndLine; EndBlock;
     StartLine; EndLine].
Proof. reflexivity. Qed.

Example copies_ATc :
  opencl_copy_arrays_from_device [] prog_ATc
  = [GuardBegin positive_guard universe;
     StartLine; Str "openclCheckReturn(clEnqueueReadBuffer(queue, dev_";
     Str "A"; Str ", CL_TRUE, 0, "; ArraySize array_A; Str ", "; Str "A";
     Str ", 0, NULL, NULL));"; EndLine;
     GuardEnd;
     StartLine; EndLine].
Proof. reflexivity. Qed.

Example releases_ATc :
  opencl_release_device_arrays [] prog_ATc
  = [StartLine; Str "openclCheckReturn(clReleaseMemObject(dev_"; Str "A";
     Str "));"; EndLine;
     StartLine; Str "openclCheckReturn(clReleaseMemObject(dev_"; Str "T";
     Str "));"; EndLine].
Proof. reflexivity. Qed.

Example block_sizes_b2 :
  opencl_print_block_sizes [] kernel_b2_g2 = [Int 8; Str ", "; Int 4].
Proof. reflexivity. Qed.

Example total_work_items_b2_g2 :
  opencl_print_total_number_of_work_items_as_list [] kernel_b2_g2
  = [Str "("; PwAff (mk_pw_aff "10"); Str ") * "; Int 8; Str ", ";
     Str "("; PwAff (mk_pw_aff "5"); Str ") * "; Int 4].
Proof. reflexivity. Qed.

(** ** The claims on the work sizes *)

(** C2: for a kernel with block-size vector [b] of length B and grid-size
    vector [g] of length G, the entry printed for dimension [i] is the
    parenthesised grid bound [g[i]] times [b[i]] when [i < min(B,G)],
    [b[i]] alone when [i >= G], and [g[i]] alone otherwise; the list has
    these entries for [i] from 0 to [max(B,G) - 1], separated by commas,
    and is the single literal 1 when [G <= 0] or [B <= 0]. *)
Theorem total_work_items_list_rule (p : isl_printer) (kernel : ppcg_kernel) :
  let b := block_dim kernel in
  let g := grid_size kernel in
  let B := Z.of_nat (length b) in
  let G := Z.of_nat (length g) in
  (forall i : Z,
     opencl_print_total_number_of_work_items_for_dim p kernel i
     = p ++ (if (i <? Z.min B G)%Z then
               [Str "("; PwAff (isl_multi_pw_aff_get_pw_aff g i); Str ") * ";
                Int (block_dim_at kernel i)]
             else if (G <=? i)%Z then [Int (block_dim_at kernel i)]
             else [PwAff (isl_multi_pw_aff_get_pw_aff g i)]))
  /\ opencl_print_total_number_of_work_items_as_list p kernel
     = p ++ (if (G <=? 0)%Z || (B <=? 0)%Z then [Str "1"]
             else
               separated (Str ", ")
                 (map (fun i =>
                         opencl_print_total_number_of_work_items_for_dim []
                           kernel (Z.of_nat i))
                    (seq 0 (Z.to_nat (Z.max B G))))).
Proof.
  cbv zeta. split.
  - intros i. apply work_items_for_dim_eq.
  - rewrite total_work_items_eq. unfold total_work_items_spec.
    destruct (_ || _); [reflexivity|].
    do 2 f_equal. apply map_ext. intros i.
    rewrite work_items_for_dim_eq. reflexivity.
Qed.

(** C3, the claim as made: with no block dimension and the grid-size
    vector [10] the list of total work items would be [10].  The list that
    is printed is the literal 1; the grid bound does not appear in it. *)
Lemma total_work_items_b0_g10_is_not_10 :
  opencl_print_total_number_of_work_items_as_list [] kernel_b0_g10 = [Str "1"]
  /\ opencl_print_total_number_of_work_items_as_list [] kernel_b0_g10
     <> [PwAff (mk_pw_aff "10")].
Proof. split; [reflexivity | discriminate]. Qed.

(** C3, amended: for a kernel with an empty block-size vector and the
    grid-size vector [10], the list of total work items is the single
    literal 1, and the arrays global_work_size and block_size are both
    declared with length 1, each with one initialiser. *)
Theorem total_work_items_b0_g10 (p : isl_printer) (prog : gpu_prog)
    (kernel_c : isl_printer) (kernel : ppcg_kernel) :
  block_dim kernel = [] ->
  grid_size kernel = [mk_pw_aff "10"] ->
  opencl_print_total_number_of_work_items_as_list p kernel = p ++ [Str "1"]
  /\ fst (opencl_print_host_user p prog kernel_c kernel)
     = p ++ [StartLine; Str "{"; EndLine; Indent 2;
             StartLine; Str "size_t global_work_size["; Int 1; Str "] = {";
             Str "1"; Str "};"; EndLine;
             StartLine; Str "size_t block_size["; Int 1; Str "] = {";
             Str "1"; Str "};"; EndLine]
         ++ launch_statements prog kernel.
Proof.
  intros Hb Hg. split.
  - rewrite total_work_items_eq, Hb, Hg. reflexivity.
  - rewrite host_user_eq. unfold work_dim, n_block. rewrite Hb, Hg.
    reflexivity.
Qed.

Lemma total_work_items_b0_g10_witness :
  opencl_print_total_number_of_work_items_as_list [] kernel_b0_g10
  = [] ++ [Str "1"]
  /\ fst (opencl_print_host_user [] (sample_prog "int" []) [] kernel_b0_g10)
     = [] ++ [StartLine; Str "{"; EndLine; Indent 2;
              StartLine; Str "size_t global_work_size["; Int 1; Str "] = {";
              Str "1"; Str "};"; EndLine;
              StartLine; Str "size_t block_size["; Int 1; Str "] = {";
              Str "1"; Str "};"; EndLine]
          ++ launch_statements (sample_prog "int" []) kernel_b0_g10.
Proof.
  apply (total_work_items_b0_g10 [] (sample_prog "int" []) [] kernel_b0_g10);
    reflexivity.
Defined.

(** C4, on the failing kernel: with one block dimension and two grid
    dimensions the array global_work_size is declared with length 1 and
    initialised with two values. *)
Theorem global_work_size_b1_g2 :
  fst (opencl_print_host_user [] (sample_prog "int" []) [] kernel_b1_g2)
  = [StartLine; Str "{"; EndLine; Indent 2;
     StartLine; Str "size_t global_work_size["; Int 1; Str "] = {";
     Str "("; PwAff (mk_pw_aff "n"); Str ") * "; Int 8; Str ", ";
     PwAff (mk_pw_aff "m"); Str "};"; EndLine;
     StartLine; Str "size_t block_size["; Int 1; Str "] = {";
     Int 8; Str "};"; EndLine]
    ++ launch_statements (sample_prog "int" []) kernel_b1_g2.
Proof. rewrite host_user_eq. reflexivity. Qed.

(** ** The claims on the kernel arguments *)

Lemma enumerate_from_snd {A : Type} (l : list A) :
  forall k, map snd (enumerate_from k l) = l.
Proof.
  induction l as [|a l IH]; intros k; simpl; [|rewrite IH]; reflexivity.
Qed.

Lemma enumerate_from_fst {A : Type} (l : list A) :
  forall k,
    map fst (enumerate_from k l)
    = map (fun i => (k + Z.of_nat i)%Z) (seq 0 (length l)).
Proof.
  induction l as [|a l IH]; intros k; simpl.
  - reflexivity.
  - rewrite Z.add_0_r, IH, <- seq_shift, map_map. f_equal.
    apply map_ext. intros i. lia.
Qed.

Lemma print_kernel_header_eq p prog kernel :
  opencl_print_kernel_header p prog kernel
  = p ++ [StartLine; Str "__kernel void kernel"; Int (kernel_id kernel);
          Str "("]
      ++ separated (Str ", ")
           (map (declaration_of
                   (isl_options_get_ast_iterator_type (prog_ctx prog)))
              (ordered_arguments prog kernel))
      ++ [Str ")"; EndLine].
Proof.
  unfold opencl_print_kernel_header. rewrite print_kernel_arguments_eq.
  appended. reflexivity.
Qed.

(** C1: the parameter list of the kernel declaration, the argument list of
    a call and the sequence of clSetKernelArg statements are all produced
    from one and the same list of arguments, element by element: the arrays
    of the program, in program order, whose part of the kernel's footprint
    is not empty, then the parameters of the footprint's space, then the
    host loop iterators of the kernel.  The three therefore have the same
    length and the same argument at every position, and the statement for
    the argument at 0-based position [k] is the one clSetKernelArg
    statement that names position [k]: for a read-only scalar, a parameter
    or an iterator it passes the size and the address of the host variable,
    for any other array the size of a cl_mem and the address of the buffer
    [dev_<name>]. *)
Theorem kernel_argument_lists_agree (p : isl_printer) (prog : gpu_prog)
    (kernel : ppcg_kernel) :
  let type := isl_options_get_ast_iterator_type (prog_ctx prog) in
  let args :=
    map ArrayArg (filter (accessed kernel) (prog_array prog))
    ++ map ParamArg
         (space_params (isl_union_set_get_space (kernel_arrays kernel)))
    ++ map IteratorArg (space_set_dims (kernel_space kernel)) in
  let bound := enumerate_from 0%Z args in
  opencl_print_kernel_header p prog kernel
  = p ++ [StartLine; Str "__kernel void kernel"; Int (kernel_id kernel);
          Str "("]
      ++ separated (Str ", ") (map (declaration_of type) args)
      ++ [Str ")"; EndLine]
  /\ opencl_print_kernel_arguments p prog kernel true
     = p ++ separated (Str ", ") (map (declaration_of type) args)
  /\ opencl_print_kernel_arguments p prog kernel false
     = p ++ separated (Str ", ") (map call_of args)
  /\ opencl_set_kernel_arguments p prog kernel
     = p ++ flat_map
              (fun ka =>
                 [StartLine; Str "openclCheckReturn(clSetKernelArg(kernel";
                  Int (kernel_id kernel); Str ", "; Int (fst ka);
                  Str ", sizeof("]
                 ++ (if bound_by_value (snd ka) then
                       [Str (argument_name (snd ka)); Str "), &"]
                     else [Str "cl_mem), (void *) &dev_"])
                 ++ [Str (argument_name (snd ka)); Str "));"; EndLine])
              bound
  /\ (forall q k arg,
        opencl_set_kernel_argument q (kernel_id kernel) (argument_name arg) k
          (bound_by_value arg)
        = q ++ [StartLine; Str "openclCheckReturn(clSetKernelArg(kernel";
                Int (kernel_id kernel); Str ", "; Int k; Str ", sizeof("]
            ++ (if bound_by_value arg then
                  [Str (argument_name arg); Str "), &"]
                else [Str "cl_mem), (void *) &dev_"])
            ++ [Str (argument_name arg); Str "));"; EndLine])
  /\ map snd bound = args
  /\ map fst bound = map Z.of_nat (seq 0 (length args))
  /\ length (map (declaration_of type) args) = length args
  /\ length (map call_of args) = length args
  /\ length bound = length args.
Proof.
  cbv zeta.
  change (map ArrayArg (filter (accessed kernel) (prog_array prog))
          ++ map ParamArg
               (space_params (isl_union_set_get_space (kernel_arrays kernel)))
          ++ map IteratorArg (space_set_dims (kernel_space kernel)))
    with (ordered_arguments prog kernel).
  repeat split.
  - apply print_kernel_header_eq.
  - apply (print_kernel_arguments_eq p prog kernel true).
  - apply (print_kernel_arguments_eq p prog kernel false).
  - rewrite set_kernel_arguments_eq. reflexivity.
  - intros q k arg. rewrite set_kernel_argument_eq. reflexivity.
  - apply enumerate_from_snd.
  - rewrite enumerate_from_fst. apply map_ext. intros i. lia.
  - apply length_map.
  - apply length_map.
  - rewrite <- (length_map snd), enumerate_from_snd. reflexivity.
Qed.

(** C9, the claim as made: every parameter of a kernel declaration would
    carry the configured iterator type.  With that type set to [long], the
    parameter [N] is still declared as [int]. *)
Lemma parameter_type_is_not_configured :
  isl_options_get_ast_iterator_type (prog_ctx (sample_prog "long" [])) = "long"
  /\ opencl_print_kernel_arguments [] (sample_prog "long" []) kernel_param_N
       true
     = [Str "int "; Str "N"]
  /\ opencl_print_kernel_arguments [] (sample_prog "long" []) kernel_param_N
       true
     <> [Str "long"; Str " "; Str "N"].
Proof. split; [reflexivity | split; [reflexivity | discriminate]]. Qed.

(** C9, amended: in a kernel declaration every array argument is
    annotated with the global address-space qualifier [__global] and with
    its element type, every parameter argument is annotated with the type
    [int], and every host loop iterator with the configured iterator
    type. *)
Theorem kernel_declaration_types (p : isl_printer) (prog : gpu_prog)
    (kernel : ppcg_kernel) :
  let type := isl_options_get_ast_iterator_type (prog_ctx prog) in
  opencl_print_kernel_arguments p prog kernel true
  = p ++ separated (Str ", ")
           (map (fun array =>
                   [Str "__global"; Str " "; Str (array_type array); Str " ";
                    Str (array_name array)])
              (filter (accessed kernel) (prog_array prog))
            ++ map (fun name => [Str "int "; Str name])
                 (space_params
                    (isl_union_set_get_space (kernel_arrays kernel)))
            ++ map (fun name => [Str type; Str " "; Str name])
                 (space_set_dims (kernel_space kernel))).
Proof.
  cbv zeta. rewrite print_kernel_arguments_eq. unfold ordered_arguments.
  rewrite !map_app, !map_map. reflexivity.
Qed.

(** ** The claims on the device arrays *)

Lemma copy_back_sizes prog array other :
  In (ArraySize array) (copy_back_of prog other) -> other = array.
Proof.
  unfold copy_back_of, copy_statement.
  destruct (is_array_positive_size_guard_trivial other); simpl; intros H;
    repeat (destruct H as [H | H]; try discriminate; try congruence);
    contradiction.
Qed.

(** C6: a copy-back is printed for exactly the arrays whose part of the
    write footprint [copy_out] is not empty, so none is printed for an
    array outside of that footprint; a buffer whose array has an empty part
    in the read footprint [copy_in] is created with a NULL host pointer and
    without CL_MEM_COPY_HOST_PTR, and the other buffers are created with
    that flag and with the host array, or the address of the host scalar,
    as their source. *)
Theorem copies_follow_footprints (p : isl_printer) (prog : gpu_prog) :
  opencl_copy_arrays_from_device p prog
  = p ++ flat_map (copy_back_of prog)
           (filter (in_footprint (prog_copy_out prog)) (prog_array prog))
      ++ [StartLine; EndLine]
  /\ (forall array,
        in_footprint (prog_copy_out prog) array = false ->
        ~ In array
            (filter (in_footprint (prog_copy_out prog)) (prog_array prog))
        /\ ~ In (ArraySize array) (opencl_copy_arrays_from_device [] prog))
  /\ opencl_allocate_device_arrays p prog
     = p ++ flat_map
              (fun array =>
                 allocate_device_array [] array
                   (in_footprint (prog_copy_in prog) array))
              (filter needs_device_buffer (prog_array prog))
         ++ [StartLine; EndLine]
  /\ (forall q array,
        allocate_device_array q array false
        = q ++ [StartBlock; StartLine; Str "dev_"; Str (array_name array);
                Str " = clCreateBuffer(context, "; Str "CL_MEM_READ_WRITE";
                Str ", "]
            ++ size_argument array
            ++ [Str ", NULL"; Str ", &err);"; EndLine;
                StartLine; Str "openclCheckReturn(err);"; EndLine; EndBlock])
  /\ (forall q array,
        allocate_device_array q array true
        = q ++ [StartBlock; StartLine; Str "dev_"; Str (array_name array);
                Str " = clCreateBuffer(context, "; Str "CL_MEM_READ_WRITE";
                Str " | CL_MEM_COPY_HOST_PTR, "]
            ++ size_argument array
            ++ [Str (if gpu_array_is_scalar array then ", &" else ", ");
                Str (array_name array); Str ", &err);"; EndLine;
                StartLine; Str "openclCheckReturn(err);"; EndLine; EndBlock]).
Proof.
  split; [apply copy_arrays_from_device_eq|].
  split.
  { intros array Hout. split.
    - rewrite filter_In, Hout. intros [_ H]. discriminate.
    - rewrite copy_arrays_from_device_eq. simpl. rewrite in_app_iff.
      intros [H | H].
      + apply in_flat_map in H. destruct H as [other [Hother Hin]].
        apply copy_back_sizes in Hin. subst other.
        apply filter_In in Hother. destruct Hother as [_ Hother].
        congruence.
      + simpl in H. repeat (destruct H as [H | H]; try discriminate).
        contradiction. }
  split.
  { rewrite allocate_device_arrays_eq. do 2 f_equal.
    apply flat_map_ext. intros a. rewrite allocate_device_array_eq.
    reflexivity. }
  split; intros q array; rewrite allocate_device_array_eq;
    unfold allocation_of, host_pointer_argument;
    repeat rewrite <- app_assoc; reflexivity.
Qed.

Lemma copies_follow_footprints_witness :
  ~ In array_T
      (filter (in_footprint (prog_copy_out prog_ATc)) (prog_array prog_ATc))
  /\ ~ In (ArraySize array_T) (opencl_copy_arrays_from_device [] prog_ATc).
Proof.
  apply (proj1 (proj2 (copies_follow_footprints [] prog_ATc))).
  reflexivity.
Defined.

(** C7: when the positive-size guard of an array is plainly the universe,
    the size of its buffer is printed as it is and its copy-back is printed
    without a guard; otherwise the size is printed as
    [max(sizeof(type), size)] and the copy-back is printed inside the
    guard, taken in the context of the program.  Every copy-back that is
    printed is printed in this way. *)
Theorem positive_size_guard_use (p : isl_printer) (prog : gpu_prog)
    (array : gpu_array_info) (copy : bool) :
  let guard := gpu_array_positive_size_guard array in
  let head :=
    [StartBlock; StartLine; Str "dev_"; Str (array_name array);
     Str " = clCreateBuffer(context, "; Str "CL_MEM_READ_WRITE";
     Str (if copy then " | CL_MEM_COPY_HOST_PTR, " else ", ")] in
  let tail :=
    host_pointer_argument array copy
    ++ [Str ", &err);"; EndLine;
        StartLine; Str "openclCheckReturn(err);"; EndLine; EndBlock] in
  (is_array_positive_size_guard_trivial array = true ->
   allocate_device_array p array copy
   = p ++ head ++ [ArraySize array] ++ tail
   /\ ppcg_print_guarded p guard (prog_context prog)
        copy_array_from_device array
      = copy_array_from_device p array)
  /\ (is_array_positive_size_guard_trivial array = false ->
      allocate_device_array p array copy
      = p ++ head
          ++ [Str "max(sizeof("; Str (array_type array); Str "), ";
              ArraySize array; Str ")"]
          ++ tail
      /\ ppcg_print_guarded p guard (prog_context prog)
           copy_array_from_device array
         = copy_array_from_device
             (p ++ [GuardBegin guard (prog_context prog)]) array
           ++ [GuardEnd])
  /\ opencl_copy_arrays_from_device p prog
     = p ++ flat_map
              (fun a =>
                 ppcg_print_guarded [] (gpu_array_positive_size_guard a)
                   (prog_context prog) copy_array_from_device a)
              (filter (in_footprint (prog_copy_out prog)) (prog_array prog))
         ++ [StartLine; EndLine].
Proof.
  cbv zeta. split; [|split].
  - intros Htriv. split.
    + rewrite allocate_device_array_eq. unfold allocation_of, size_argument.
      rewrite Htriv. repeat rewrite <- app_assoc. reflexivity.
    + unfold ppcg_print_guarded.
      unfold is_array_positive_size_guard_trivial in Htriv.
      rewrite Htriv. reflexivity.
  - intros Htriv. split.
    + rewrite allocate_device_array_eq. unfold allocation_of, size_argument.
      rewrite Htriv. repeat rewrite <- app_assoc. reflexivity.
    + unfold ppcg_print_guarded.
      unfold is_array_positive_size_guard_trivial in Htriv.
      rewrite Htriv. reflexivity.
  - rewrite copy_arrays_from_device_eq. do 2 f_equal.
    apply flat_map_ext. intros a. rewrite guarded_copy_eq. reflexivity.
Qed.

Lemma positive_size_guard_use_witness :
  (allocate_device_array [] array_T true
   = [StartBlock; StartLine; Str "dev_"; Str "T";
      Str " = clCreateBuffer(context, "; Str "CL_MEM_READ_WRITE";
      Str " | CL_MEM_COPY_HOST_PTR, "; ArraySize array_T;
      Str ", "; Str "T"; Str ", &err);"; EndLine;
      StartLine; Str "openclCheckReturn(err);"; EndLine; EndBlock]
   /\ ppcg_print_guarded [] universe universe copy_array_from_device array_T
      = copy_array_from_device [] array_T)
  /\ (allocate_device_array [] array_A false
      = [StartBlock; StartLine; Str "dev_"; Str "A";
         Str " = clCreateBuffer(context, "; Str "CL_MEM_READ_WRITE";
         Str ", "; Str "max(sizeof("; Str "float"; Str "), ";
         ArraySize array_A; Str ")"; Str ", NULL"; Str ", &err);"; EndLine;
         StartLine; Str "openclCheckReturn(err);"; EndLine; EndBlock]
      /\ ppcg_print_guarded [] positive_guard universe
           copy_array_from_device array_A
         = copy_array_from_device [GuardBegin positive_guard universe] array_A
           ++ [GuardEnd]).
Proof.
  split.
  - apply (proj1 (positive_size_guard_use [] prog_ATc array_T true)).
    reflexivity.
  - apply (proj1 (proj2 (positive_size_guard_use [] prog_ATc array_A false))).
    reflexivity.
Defined.

(** C8: the declarations, the allocations and the releases of device
    buffers are printed for the arrays that are not read-only scalars and
    for no other; the statement that binds a read-only scalar passes the
    size and the address of the host variable, not a buffer. *)
Theorem read_only_scalars_have_no_buffer (p : isl_printer) (prog : gpu_prog)
    (kernel : ppcg_kernel) :
  let buffers := filter needs_device_buffer (prog_array prog) in
  opencl_declare_device_arrays p prog
  = p ++ flat_map
           (fun array =>
              [StartLine; Str "cl_mem dev_"; Str (array_name array); Str ";";
               EndLine])
           buffers
      ++ [StartLine; EndLine]
  /\ opencl_allocate_device_arrays p prog
     = p ++ flat_map
              (fun array =>
                 allocate_device_array [] array
                   (in_footprint (prog_copy_in prog) array))
              buffers
         ++ [StartLine; EndLine]
  /\ opencl_release_device_arrays p prog
     = p ++ flat_map (release_device_array []) buffers
  /\ opencl_set_kernel_arguments p prog kernel
     = p ++ flat_map
              (fun ka =>
                 opencl_set_kernel_argument [] (kernel_id kernel)
                   (argument_name (snd ka)) (fst ka) (bound_by_value (snd ka)))
              (enumerate_from 0%Z (ordered_arguments prog kernel))
  /\ (forall array,
        gpu_array_is_read_only_scalar array = true ->
        ~ In array buffers
        /\ forall q k,
             opencl_set_kernel_argument q (kernel_id kernel)
               (argument_name (ArrayArg array)) k
               (bound_by_value (ArrayArg array))
             = q ++ [StartLine; Str "openclCheckReturn(clSetKernelArg(kernel";
                     Int (kernel_id kernel); Str ", "; Int k; Str ", sizeof(";
                     Str (array_name array); Str "), &";
                     Str (array_name array); Str "));"; EndLine]).
Proof.
  cbv zeta. split; [apply declare_device_arrays_eq|].
  split.
  { rewrite allocate_device_arrays_eq. do 2 f_equal.
    apply flat_map_ext. intros a. rewrite allocate_device_array_eq.
    reflexivity. }
  split.
  { rewrite release_device_arrays_eq. f_equal. }
  split.
  { rewrite set_kernel_arguments_eq. unfold bindings_of. f_equal.
    apply flat_map_ext. intros [k arg]. simpl.
    symmetry. apply (set_kernel_argument_eq [] (kernel_id kernel) arg k). }
  intros array Hro. split.
  - rewrite filter_In. unfold needs_device_buffer. rewrite Hro.
    intros [_ H]. discriminate.
  - intros q k. rewrite set_kernel_argument_eq. unfold binding_of. simpl.
    rewrite Hro. reflexivity.
Qed.

Lemma read_only_scalars_have_no_buffer_witness :
  ~ In array_c (filter needs_device_buffer (prog_array prog_ATc))
  /\ forall q k,
       opencl_set_kernel_argument q 3%Z "c" k true
       = q ++ [StartLine; Str "openclCheckReturn(clSetKernelArg(kernel";
               Int 3; Str ", "; Int k; Str ", sizeof(";
               Str "c"; Str "), &"; Str "c"; Str "));"; EndLine].
Proof.
  apply (proj2 (proj2 (proj2 (proj2
           (read_only_scalars_have_no_buffer [] prog_ATc kernel_Ac))))
           array_c).
  reflexivity.
Defined.

(** C10: every buffer is created with CL_MEM_READ_WRITE, whatever the
    footprints are: the read footprint decides on CL_MEM_COPY_HOST_PTR and
    on the host pointer only, and the write footprint has no part in the
    allocations. *)
Theorem buffers_are_read_write (p : isl_printer) (prog : gpu_prog) :
  (forall q array copy,
     allocate_device_array q array copy
     = q ++ [StartBlock; StartLine; Str "dev_"; Str (array_name array);
             Str " = clCreateBuffer(context, "; Str "CL_MEM_READ_WRITE";
             Str (if copy then " | CL_MEM_COPY_HOST_PTR, " else ", ")]
         ++ size_argument array
         ++ (if copy then
               [Str (if gpu_array_is_scalar array then ", &" else ", ");
                Str (array_name array)]
             else [Str ", NULL"])
         ++ [Str ", &err);"; EndLine;
             StartLine; Str "openclCheckReturn(err);"; EndLine; EndBlock])
  /\ opencl_allocate_device_arrays p prog
     = p ++ flat_map
              (fun array =>
                 allocate_device_array [] array
                   (in_footprint (prog_copy_in prog) array))
              (filter needs_device_buffer (prog_array prog))
         ++ [StartLine; EndLine]
  /\ (forall copy_out,
        opencl_allocate_device_arrays p
          (mk_prog (prog_ctx prog) (prog_context prog) (prog_array prog)
             (prog_copy_in prog) copy_out)
        = opencl_allocate_device_arrays p prog).
Proof.
  split.
  { intros q array copy. apply allocate_device_array_eq. }
  split.
  { rewrite allocate_device_arrays_eq. do 2 f_equal.
    apply flat_map_ext. intros a. rewrite allocate_device_array_eq.
    reflexivity. }
  intros copy_out. rewrite !allocate_device_arrays_eq. reflexivity.
Qed.

(** ** The claim on the output files *)

Lemma generate_opencl_aborts extract base generate_gpu input output w info w' :
  opencl_open_files extract base
    (mk_info input output EmptyString None None None) w
  = Returns ((-1)%Z, info, w') ->
  generate_opencl extract base generate_gpu input output w
  = Returns ((-1)%Z, opencl_close_files info w').
Proof.
  intros Hopen. unfold generate_opencl. rewrite Hopen. reflexivity.
Qed.

(** The kernel source cannot be opened: failure is returned, the generator
    is not run, and the two files that were opened are closed. *)
Example generate_opencl_without_kernel_c extract base generate_gpu :
  exists w,
    generate_opencl extract base generate_gpu "in.c" (Some "out.c")
      (world_without "out_kernel.cl")
    = Returns ((-1)%Z, w)
    /\ open_handles w = []
    /\ closed_handles w = ["out_kernel.h"; "out.c"]
    /\ written w = [].
Proof. eexists. split; [reflexivity|]. repeat split. Qed.

(** C5, on the failing input: the kernel header cannot be opened, the two
    other files can.  [opencl_open_files] tests [host_c] twice and
    [kernel_h] never; it does not return -1 but goes on to write the
    prologue of the header to the NULL stream. *)
Theorem open_files_misses_kernel_h extract base generate_gpu :
  let w := world_without "out_kernel.h" in
  let info := mk_info "in.c" (Some "out.c") EmptyString None None None in
  opencl_open_files extract base info w = Undefined
  /\ (forall info' w',
        opencl_open_files extract base info w <> Returns ((-1)%Z, info', w'))
  /\ generate_opencl extract base generate_gpu "in.c" (Some "out.c") w
     = Undefined.
Proof.
  cbv zeta. split; [reflexivity|]. split; [|reflexivity].
  intros info' w'. discriminate.
Qed.

(** * Further properties *)

(** ** The output files *)

Lemma strrchr_some (c : ascii) :
  forall s k,
    strrchr s c = Some k ->
    exists rest,
      s = (substring 0 k s ++ String c rest)%string /\ strrchr rest c = None.
Proof.
  induction s as [|a s IH]; intros k Hk; simpl in Hk.
  - discriminate.
  - destruct (strrchr s c) as [k'|] eqn:E.
    + injection Hk as <-. destruct (IH k' eq_refl) as [rest [Hs Hrest]].
      exists rest. split; [|exact Hrest].
      simpl. rewrite <- Hs. reflexivity.
    + destruct (Ascii.eqb a c) eqn:Hac; [|discriminate].
      injection Hk as <-. apply Ascii.eqb_eq in Hac. subst a.
      exists s. split; [|exact E]. destruct s; reflexivity.
Qed.

Lemma strrchr_none (c : ascii) :
  forall s, strrchr s c = None -> ~ In c (list_ascii_of_string s).
Proof.
  induction s as [|a s IH]; intros Hs; simpl in *.
  - intros [].
  - destruct (strrchr s c); [discriminate|].
    destruct (Ascii.eqb a c) eqn:Hac; [discriminate|].
    apply Ascii.eqb_neq in Hac. intros [H | H]; [congruence|].
    exact (IH eq_refl H).
Qed.

Lemma substring_all s : substring 0 (String.length s) s = s.
Proof. induction s as [|a s IH]; simpl; [|rewrite IH]; reflexivity. Qed.

Lemma open_or_croak_eq name w :
  open_or_croak name w
  = (try_open w name,
     mk_world (can_open w) (open_handles w ++ opened [try_open w name])
       (closed_handles w) (written w) (stderr w ++ failures w [name])).
Proof.
  unfold open_or_croak, fopen_w, try_open, failures, opened, fprintf_stderr,
    failure_message.
  destruct w as [can oh ch wr se]. cbn [can_open flat_map app].
  destruct (can name); cbn [can_open open_handles closed_handles written
    stderr flat_map app]; rewrite ?app_nil_r; reflexivity.
Qed.

(** What [opencl_open_files] does, by the length of the stem and by the
    files that can be opened.  The longest of the buffer writes is the one
    of [_kernel.cl] and its final zero after the stem. *)
Lemma open_files_eq extract base info w :
  let host := host_c_name extract info in
  let kc := kernel_c_name extract info in
  let kh := kernel_h_name extract info in
  let info' :=
    mk_info (info_input info) (info_output info) kc
      (try_open w host) (try_open w kc) (try_open w kh) in
  let w' texts :=
    mk_world (can_open w)
      (open_handles w
       ++ opened [try_open w host; try_open w kc; try_open w kh])
      (closed_handles w) texts (stderr w ++ failures w [host; kc; kh]) in
  opencl_open_files extract base info w
  = if (stem_length extract info + 11 <=? PATH_MAX)%nat then
      match try_open w host, try_open w kc, try_open w kh with
      | Some h, Some _, Some k =>
          Returns (0%Z, info', w' (written w ++ prologue h k (base kh)))
      | Some _, Some _, None => Undefined
      | _, _, _ => Returns ((-1)%Z, info', w' (written w))
      end
    else Undefined.
Proof.
  cbv zeta.
  unfold opencl_open_files, stem_length, host_c_name, kernel_c_name,
    kernel_h_name, output_base, buffer_write.
  destruct (info_output info) as [output|].
  - set (len := match strrchr output "." with
                | Some k => k
                | None => String.length output
                end).
    destruct (Nat.leb_spec (len + 11) PATH_MAX) as [Hfit | Hover].
    + assert (H0 : (0 + len <=? PATH_MAX)%nat = true)
        by (apply Nat.leb_le; lia).
      assert (H10 : (len + 10 <=? PATH_MAX)%nat = true)
        by (apply Nat.leb_le; lia).
      assert (H11 : (len + 11 <=? PATH_MAX)%nat = true)
        by (apply Nat.leb_le; lia).
      do 5 (rewrite ?H0, ?H10, ?H11, ?open_or_croak_eq; cbn [bind]).
      cbn [can_open open_handles closed_handles written stderr].
      unfold try_open, failures, opened.
      cbn [can_open open_handles closed_handles written stderr flat_map app].
      repeat match goal with
             | |- context [can_open w ?n] => destruct (can_open w n) eqn:?
             end;
        cbn [can_open open_handles closed_handles written stderr flat_map app
             info_host_c info_kernel_c info_kernel_h orb bind fprintf];
        rewrite <- ?app_assoc, ?app_nil_r; reflexivity.
    + assert (H11 : (len + 11 <=? PATH_MAX)%nat = false)
        by (apply Nat.leb_gt; lia).
      destruct (0 + len <=? PATH_MAX)%nat eqn:H0; [|reflexivity].
      do 3 (rewrite ?H0, ?H11, ?open_or_croak_eq; cbn [bind]).
      reflexivity.
  - set (len := String.length (extract (info_input info))).
    destruct (Nat.leb_spec (len + 11) PATH_MAX) as [Hfit | Hover].
    + assert (H0 : (0 + len <=? PATH_MAX)%nat = true)
        by (apply Nat.leb_le; lia).
      assert (H8 : (len + 8 <=? PATH_MAX)%nat = true)
        by (apply Nat.leb_le; lia).
      assert (H10 : (len + 10 <=? PATH_MAX)%nat = true)
        by (apply Nat.leb_le; lia).
      assert (H11 : (len + 11 <=? PATH_MAX)%nat = true)
        by (apply Nat.leb_le; lia).
      do 5 (rewrite ?H0, ?H8, ?H10, ?H11, ?open_or_croak_eq; cbn [bind]).
      cbn [can_open open_handles closed_handles written stderr].
      unfold try_open, failures, opened.
      cbn [can_open open_handles closed_handles written stderr flat_map app].
      repeat match goal with
             | |- context [can_open w ?n] => destruct (can_open w n) eqn:?
             end;
        cbn [can_open open_handles closed_handles written stderr flat_map app
             info_host_c info_kernel_c info_kernel_h orb bind fprintf];
        rewrite <- ?app_assoc, ?app_nil_r; reflexivity.
    + assert (H11 : (len + 11 <=? PATH_MAX)%nat = false)
        by (apply Nat.leb_gt; lia).
      destruct (len + 8 <=? PATH_MAX)%nat eqn:H8; [|reflexivity].
      destruct (0 + len <=? PATH_MAX)%nat eqn:H0;
        do 3 (rewrite ?H0, ?H8, ?H11, ?open_or_croak_eq; cbn [bind]);
        reflexivity.
Qed.

Lemma in_opened (files : list (option FILE)) (f : FILE) :
  In f (opened files) <-> In (Some f) files.
Proof.
  unfold opened. rewrite in_flat_map. split.
  - intros [[g|] [Hin Hf]]; simpl in Hf; [|contradiction].
    destruct Hf as [<- | []]. exact Hin.
  - intros Hin. exists (Some f). split; [exact Hin | left; reflexivity].
Qed.

Lemma fclose_open_handles f w g :
  In g (open_handles (fclose f w)) <-> In g (open_handles w) /\ g <> f.
Proof.
  unfold fclose. cbn [open_handles]. rewrite filter_In, negb_true_iff.
  rewrite String.eqb_neq. reflexivity.
Qed.

Lemma close_files_open_handles info w g :
  In g (open_handles (opencl_close_files info w))
  <-> In g (open_handles w)
      /\ ~ In (Some g) [info_host_c info; info_kernel_c info; info_kernel_h info].
Proof.
  unfold opencl_close_files.
  destruct (info_host_c info) as [h|], (info_kernel_c info) as [c|],
    (info_kernel_h info) as [k|];
    rewrite ?fclose_open_handles; simpl; intuition congruence.
Qed.

(** X1: for a stem that fits the name buffers, with [_kernel.cl] and its
    final zero after it, [opencl_open_files] returns -1 exactly when the
    host file or the kernel source cannot be opened.  It then has written
    to none of the files, has reported each file that could not be opened on
    stderr, and has left the files that it did open open and recorded. *)
Theorem open_files_failure extract base info w :
  let host := host_c_name extract info in
  let kc := kernel_c_name extract info in
  let kh := kernel_h_name extract info in
  stem_length extract info + 11 <= PATH_MAX ->
  (can_open w host = false \/ can_open w kc = false ->
   exists info' w',
     opencl_open_files extract base info w = Returns ((-1)%Z, info', w')
     /\ written w' = written w
     /\ stderr w' = stderr w ++ failures w [host; kc; kh]
     /\ open_handles w'
        = open_handles w
          ++ opened [info_host_c info'; info_kernel_c info';
                     info_kernel_h info'])
  /\ (forall info' w',
        opencl_open_files extract base info w = Returns ((-1)%Z, info', w') ->
        can_open w host = false \/ can_open w kc = false).
Proof.
  cbv zeta. intros Hfit.
  pose proof (open_files_eq extract base info w) as Heq.
  cbv zeta in Heq. unfold try_open in Heq.
  apply Nat.leb_le in Hfit. rewrite Hfit in Heq. split.
  - intros Hfail.
    destruct (can_open w (host_c_name extract info)) eqn:Hh;
      destruct (can_open w (kernel_c_name extract info)) eqn:Hc;
      try (destruct Hfail; discriminate);
      destruct (can_open w (kernel_h_name extract info)) eqn:Hk;
      do 2 eexists; (split; [exact Heq|]); repeat split.
  - intros info' w' Hret. rewrite Hret in Heq.
    destruct (can_open w (host_c_name extract info)); [|left; reflexivity].
    destruct (can_open w (kernel_c_name extract info)); [|right; reflexivity].
    destruct (can_open w (kernel_h_name extract info)); discriminate.
Qed.

Lemma open_files_failure_witness :
  exists info' w',
    opencl_open_files (fun s => s) (fun s => s) info_out_c
      (world_without "out_kernel.cl")
    = Returns ((-1)%Z, info', w')
    /\ written w' = []
    /\ stderr w'
       = failures (world_without "out_kernel.cl")
           ["out.c"; "out_kernel.cl"; "out_kernel.h"]
    /\ open_handles w'
       = opened [info_host_c info'; info_kernel_c info'; info_kernel_h info'].
Proof.
  apply (proj1 (open_files_failure (fun s => s) (fun s => s) info_out_c
                  (world_without "out_kernel.cl")
                  ltac:(apply Nat.leb_le; reflexivity))).
  right. reflexivity.
Defined.

(** X2: for a stem that fits the name buffers, [opencl_open_files] returns
    0 when all three files can be opened: the three handles are then
    recorded and open, what has been written is the three include lines of
    the host file followed by the eight lines of the header, and nothing
    went to stderr.  It returns 0 in no other case: the stem then fits and
    the three files can be opened. *)
Theorem open_files_success extract base info w :
  let host := host_c_name extract info in
  let kc := kernel_c_name extract info in
  let kh := kernel_h_name extract info in
  (stem_length extract info + 11 <= PATH_MAX ->
   can_open w host = true -> can_open w kc = true -> can_open w kh = true ->
   exists info' w',
     opencl_open_files extract base info w = Returns (0%Z, info', w')
     /\ info_host_c info' = Some host
     /\ info_kernel_c info' = Some kc
     /\ info_kernel_h info' = Some kh
     /\ written w' = written w ++ prologue host kh (base kh)
     /\ stderr w' = stderr w
     /\ open_handles w' = open_handles w ++ [host; kc; kh])
  /\ (forall info' w',
        opencl_open_files extract base info w = Returns (0%Z, info', w') ->
        stem_length extract info + 11 <= PATH_MAX
        /\ can_open w host = true /\ can_open w kc = true
        /\ can_open w kh = true).
Proof.
  cbv zeta. pose proof (open_files_eq extract base info w) as Heq.
  cbv zeta in Heq. unfold try_open, failures in Heq. split.
  - intros Hfit Hh Hc Hk. apply Nat.leb_le in Hfit.
    rewrite Hfit, Hh, Hc, Hk in Heq.
    do 2 eexists. split; [exact Heq|].
    cbn [info_host_c info_kernel_c info_kernel_h written stderr open_handles
         opened flat_map app].
    rewrite Hh, Hc, Hk, app_nil_r. repeat split.
  - intros info' w' Hret. rewrite Hret in Heq.
    destruct (Nat.leb_spec (stem_length extract info + 11) PATH_MAX);
      [|discriminate].
    destruct (can_open w (host_c_name extract info)); [|discriminate].
    destruct (can_open w (kernel_c_name extract info)); [|discriminate].
    destruct (can_open w (kernel_h_name extract info)); [|discriminate].
    repeat split. assumption.
Qed.

Lemma open_files_success_witness :
  exists info' w',
    opencl_open_files (fun s => s) (fun s => s) info_out_c world_open
    = Returns (0%Z, info', w')
    /\ info_host_c info' = Some "out.c"
    /\ info_kernel_c info' = Some "out_kernel.cl"
    /\ info_kernel_h info' = Some "out_kernel.h"
    /\ written w' = prologue "out.c" "out_kernel.h" "out_kernel.h"
    /\ stderr w' = []
    /\ open_handles w' = ["out.c"; "out_kernel.cl"; "out_kernel.h"].
Proof.
  apply (proj1 (open_files_success (fun s => s) (fun s => s) info_out_c
                  world_open)); try reflexivity.
  apply Nat.leb_le. reflexivity.
Defined.

Lemma output_base_strips_extension output :
  let stem :=
    substring 0
      (match strrchr output "." with
       | Some k => k
       | None => String.length output
       end)
      output in
  exists ext,
    output = (stem ++ ext)%string
    /\ ((ext = EmptyString /\ ~ In "."%char (list_ascii_of_string output))
        \/ exists rest,
             ext = String "." rest
             /\ ~ In "."%char (list_ascii_of_string rest)).
Proof.
  cbv zeta. destruct (strrchr output ".") as [k|] eqn:E.
  - destruct (strrchr_some _ _ E) as [rest [Hs Hrest]].
    exists (String "." rest). split; [exact Hs|].
    right. exists rest. split; [reflexivity|].
    apply strrchr_none. exact Hrest.
  - exists EmptyString. rewrite substring_all. split.
    + clear E. induction output as [|a s IH]; simpl; [|rewrite <- IH];
        reflexivity.
    + left. split; [reflexivity|]. apply strrchr_none. exact E.
Qed.

(** X3: whenever [opencl_open_files] returns, the names it used share one
    stem.  With an output name that has a dot, the stem is what precedes
    its last dot; with one that has no dot, the stem is the whole name; in
    both cases the host file is the output name itself.  Without an output
    name the stem is the base name of the input and the host file is the
    stem with [_host.c].  The kernel source is the stem with [_kernel.cl],
    which is also the name recorded in [kernel_c_name], and the header is
    the stem with [_kernel.h]. *)
Theorem open_files_names extract base info w r info' w' :
  opencl_open_files extract base info w = Returns (r, info', w') ->
  exists stem,
    match info_output info with
    | Some output =>
        (exists ext,
           output = (stem ++ ext)%string
           /\ ((ext = EmptyString
                /\ ~ In "."%char (list_ascii_of_string output))
               \/ exists rest,
                    ext = String "." rest
                    /\ ~ In "."%char (list_ascii_of_string rest)))
        /\ In (info_host_c info') [None; Some output]
    | None =>
        stem = extract (info_input info)
        /\ In (info_host_c info') [None; Some (stem ++ "_host.c")%string]
    end
    /\ info_kernel_c_name info' = (stem ++ "_kernel.cl")%string
    /\ In (info_kernel_c info') [None; Some (stem ++ "_kernel.cl")%string]
    /\ In (info_kernel_h info') [None; Some (stem ++ "_kernel.h")%string].
Proof.
  intros Hret. pose proof (open_files_eq extract base info w) as Heq.
  cbv zeta in Heq. rewrite Hret in Heq.
  exists (output_base extract info).
  assert (Hinfo :
    info' = mk_info (info_input info) (info_output info)
              (kernel_c_name extract info)
              (try_open w (host_c_name extract info))
              (try_open w (kernel_c_name extract info))
              (try_open w (kernel_h_name extract info))).
  { destruct (stem_length extract info + 11 <=? PATH_MAX)%nat;
      [|discriminate].
    destruct (try_open w (host_c_name extract info)),
      (try_open w (kernel_c_name extract info)),
      (try_open w (kernel_h_name extract info)); congruence. }
  rewrite Hinfo. cbn [info_host_c info_kernel_c info_kernel_h
    info_kernel_c_name]. clear Heq Hret Hinfo.
  unfold try_open, host_c_name, kernel_c_name, kernel_h_name, output_base.
  destruct (info_output info) as [output|]; repeat split;
    try apply output_base_strips_extension;
    try (destruct (can_open w _); simpl; auto).
Qed.

Lemma open_files_names_witness :
  exists stem,
    ((exists ext,
        "out.c" = (stem ++ ext)%string
        /\ ((ext = EmptyString
             /\ ~ In "."%char (list_ascii_of_string "out.c"))
            \/ exists rest,
                 ext = String "." rest
                 /\ ~ In "."%char (list_ascii_of_string rest)))
     /\ In (Some "out.c") [None; Some "out.c"])
    /\ "out_kernel.cl" = (stem ++ "_kernel.cl")%string
    /\ In (Some "out_kernel.cl") [None; Some (stem ++ "_kernel.cl")%string]
    /\ In (Some "out_kernel.h") [None; Some (stem ++ "_kernel.h")%string].
Proof.
  apply (open_files_names (fun s => s) (fun s => s) info_out_c world_open
           (r := 0%Z)
           (info' := mk_info "in.c" (Some "out.c") "out_kernel.cl"
                       (Some "out.c") (Some "out_kernel.cl")
                       (Some "out_kernel.h"))
           (w' := mk_world (fun _ => true)
                    ["out.c"; "out_kernel.cl"; "out_kernel.h"] []
                    (prologue "out.c" "out_kernel.h" "out_kernel.h") [])).
  reflexivity.
Defined.

(** X4: [opencl_close_files] closes every handle that the info records and
    no other: none of the recorded handles is open afterwards, every other
    open handle stays open, the handles are closed in the order kernel
    source, header, host file, and nothing is written. *)
Theorem close_files_closes_recorded_handles info w :
  let w' := opencl_close_files info w in
  let recorded := [info_host_c info; info_kernel_c info; info_kernel_h info] in
  (forall f, In (Some f) recorded -> ~ In f (open_handles w'))
  /\ (forall g,
        In g (open_handles w) -> ~ In (Some g) recorded ->
        In g (open_handles w'))
  /\ closed_handles w'
     = closed_handles w
       ++ opened [info_kernel_c info; info_kernel_h info; info_host_c info]
  /\ written w' = written w
  /\ stderr w' = stderr w.
Proof.
  cbv zeta. split; [|split].
  - intros f Hf Hin. apply close_files_open_handles in Hin.
    destruct Hin as [_ Hnot]. exact (Hnot Hf).
  - intros g Hin Hnot. apply close_files_open_handles. split; assumption.
  - unfold opencl_close_files, opened.
    destruct (info_host_c info), (info_kernel_c info), (info_kernel_h info);
      cbn; rewrite <- ?app_assoc, ?app_nil_r; repeat split.
Qed.

Lemma close_files_closes_recorded_handles_witness :
  ~ In "out.c"
      (open_handles
         (opencl_close_files
            (mk_info "in.c" (Some "out.c") "out_kernel.cl" (Some "out.c")
               None (Some "out_kernel.h"))
            (mk_world (fun _ => true) ["out.c"; "log"; "out_kernel.h"] [] []
               [])))
  /\ In "log"
       (open_handles
          (opencl_close_files
             (mk_info "in.c" (Some "out.c") "out_kernel.cl" (Some "out.c")
                None (Some "out_kernel.h"))
             (mk_world (fun _ => true) ["out.c"; "log"; "out_kernel.h"] [] []
                []))).
Proof.
  split.
  - apply (proj1 (close_files_closes_recorded_handles
                    (mk_info "in.c" (Some "out.c") "out_kernel.cl"
                       (Some "out.c") None (Some "out_kernel.h"))
                    (mk_world (fun _ => true)
                       ["out.c"; "log"; "out_kernel.h"] [] [] []))).
    left. reflexivity.
  - apply (proj1 (proj2 (close_files_closes_recorded_handles
                           (mk_info "in.c" (Some "out.c") "out_kernel.cl"
                              (Some "out.c") None (Some "out_kernel.h"))
                           (mk_world (fun _ => true)
                              ["out.c"; "log"; "out_kernel.h"] [] [] [])))).
    + right. left. reflexivity.
    + simpl. intros [H | [H | [H | []]]]; discriminate.
Defined.

(** X5: started with no open handle and with a generator that leaves
    the open handles alone, [generate_opencl], when it returns, has closed
    every file it opened: no handle is open at the end, after a success and
    after a failure.  For a stem that fits the name buffers, when the host
    file or the kernel source cannot be opened [generate_opencl] does
    return, with -1 and with nothing written to any file, whatever
    the generator is. *)
Theorem generate_opencl_closes_files extract base generate_gpu input output
    w :
  let info := mk_info input output EmptyString None None None in
  ((forall i v, open_handles (snd (generate_gpu i v)) = open_handles v) ->
   open_handles w = [] ->
   forall r w',
     generate_opencl extract base generate_gpu input output w
     = Returns (r, w') ->
     open_handles w' = [])
  /\ (stem_length extract info + 11 <= PATH_MAX ->
      can_open w (host_c_name extract info) = false
      \/ can_open w (kernel_c_name extract info) = false ->
      exists w',
        generate_opencl extract base generate_gpu input output w
        = Returns ((-1)%Z, w')
        /\ written w' = written w).
Proof.
  cbv zeta.
  set (info := mk_info input output EmptyString None None None).
  pose proof (open_files_eq extract base info w) as Heq. cbv zeta in Heq.
  assert (Hempty : forall l : list FILE, (forall g, ~ In g l) -> l = []).
  { intros [|a l] H; [reflexivity|]. exfalso. apply (H a). left. reflexivity. }
  split.
  - intros Hkeep Hnone r w' Hret.
    unfold generate_opencl in Hret. fold info in Hret.
    rewrite Heq in Hret. clear Heq. rewrite Hnone in Hret.
    destruct (stem_length extract info + 11 <=? PATH_MAX)%nat;
      [|discriminate].
    unfold try_open in Hret.
    destruct (can_open w (host_c_name extract info)) eqn:Hh;
      destruct (can_open w (kernel_c_name extract info)) eqn:Hc;
      destruct (can_open w (kernel_h_name extract info)) eqn:Hk;
      cbn [bind Z.geb Z.compare] in Hret; try discriminate.
    1:{ destruct (generate_gpu _ _) as [r1 w1] eqn:Hgen in Hret.
        injection Hret as <- <-.
        apply Hempty. intros g Hin. apply close_files_open_handles in Hin.
        destruct Hin as [Hin Hnot]. apply Hnot.
        match type of Hgen with
        | generate_gpu ?i ?v = _ => pose proof (Hkeep i v) as Hk1
        end.
        rewrite Hgen in Hk1. cbn [snd open_handles] in Hk1.
        rewrite Hk1 in Hin. cbn in Hin. cbn.
        destruct Hin as [<- | [<- | [<- | []]]]; auto. }
    all: injection Hret as <- <-;
      apply Hempty; intros g Hin; apply close_files_open_handles in Hin;
      destruct Hin as [Hin Hnot]; apply Hnot; cbn in Hin; cbn;
      repeat (destruct Hin as [<- | Hin]; auto); contradiction.
  - intros Hfit Hfail. apply Nat.leb_le in Hfit.
    unfold generate_opencl. fold info. rewrite Heq, Hfit. clear Heq.
    unfold try_open.
    destruct (can_open w (host_c_name extract info)) eqn:Hh;
      destruct (can_open w (kernel_c_name extract info)) eqn:Hc;
      try (destruct Hfail; discriminate);
      destruct (can_open w (kernel_h_name extract info)) eqn:Hk;
      cbn [bind Z.geb Z.compare];
      eexists; (split; [reflexivity|]);
      unfold opencl_close_files;
      cbn [info_host_c info_kernel_c info_kernel_h fclose written];
      reflexivity.
Qed.

Lemma generate_opencl_closes_files_witness :
  (forall r w',
     generate_opencl (fun s => s) (fun s => s) (fun _ v => (0%Z, v)) "in.c"
       (Some "out.c") world_open
     = Returns (r, w') ->
     open_handles w' = [])
  /\ (exists w',
        generate_opencl (fun s => s) (fun s => s) (fun _ v => (0%Z, v)) "in.c"
          (Some "out.c") (world_without "out_kernel.cl")
        = Returns ((-1)%Z, w')
        /\ written w' = []).
Proof.
  split.
  - apply (proj1 (generate_opencl_closes_files (fun s => s) (fun s => s)
                    (fun _ v => (0%Z, v)) "in.c" (Some "out.c") world_open)).
    + reflexivity.
    + reflexivity.
  - apply (proj2 (generate_opencl_closes_files (fun s => s) (fun s => s)
                    (fun _ v => (0%Z, v)) "in.c" (Some "out.c")
                    (world_without "out_kernel.cl"))).
    + apply Nat.leb_le. reflexivity.
    + right. reflexivity.
Defined.

(** ** The number of initialisers *)

Lemma separators_of_separated (items : list (list event)) :
  Forall (fun item => filter is_separator item = []) items ->
  items <> [] ->
  initialisers (separated (Str ", ") items) = length items.
Proof.
  intros Hitems Hne. unfold initialisers.
  destruct items as [|x xs]; [contradiction|]. simpl.
  inversion Hitems as [|? ? Hx Hxs]; subst.
  rewrite filter_app, Hx. simpl. f_equal.
  clear Hx Hitems Hne. induction Hxs as [|y ys Hy Hys IH]; simpl.
  - reflexivity.
  - rewrite filter_app, Hy. simpl. rewrite IH. reflexivity.
Qed.


Lemma work_items_for_dim_no_separator b g i :
  filter is_separator (work_items_for_dim_spec b g i) = [].
Proof.
  unfold work_items_for_dim_spec.
  destruct (_ <? _)%Z; [|destruct (_ <=? _)%Z]; reflexivity.
Qed.

(** X7: the initialiser of global_work_size has one entry when the kernel
    has no grid or no block dimension and [max(n_block, grid_dim)] entries
    otherwise.  This is the declared length [max(n_block, 1)] exactly when
    there is no block dimension, or no grid dimension and one block
    dimension, or at least one grid dimension and no more grid than block
    dimensions. *)
Theorem global_work_size_initialisers (kernel : ppcg_kernel) :
  let B := length (block_dim kernel) in
  let G := length (grid_size kernel) in
  initialisers (opencl_print_total_number_of_work_items_as_list [] kernel)
  = (if Nat.eqb G 0 || Nat.eqb B 0 then 1 else Nat.max B G)
  /\ (initialisers
        (opencl_print_total_number_of_work_items_as_list [] kernel)
      = Z.to_nat (work_dim kernel)
      <-> B = 0 \/ (G = 0 /\ B = 1) \/ (1 <= G /\ G <= B)).
Proof.
  cbv zeta.
  assert (Hcount :
    initialisers (opencl_print_total_number_of_work_items_as_list [] kernel)
    = (if Nat.eqb (length (grid_size kernel)) 0
          || Nat.eqb (length (block_dim kernel)) 0
       then 1 else Nat.max (length (block_dim kernel))
                     (length (grid_size kernel)))).
  { rewrite total_work_items_eq. unfold total_work_items_spec. cbn [app].
    destruct (length (grid_size kernel)) as [|G] eqn:EG.
    - reflexivity.
    - destruct (length (block_dim kernel)) as [|B] eqn:EB.
      + reflexivity.
      + replace ((Z.of_nat (S G) <=? 0)%Z || (Z.of_nat (S B) <=? 0)%Z)
          with false
          by (symmetry; apply orb_false_iff; split; apply Z.leb_gt; lia).
        cbn [Nat.eqb orb].
        rewrite separators_of_separated.
        * rewrite length_map, length_seq. lia.
        * apply Forall_forall. intros item Hin. apply in_map_iff in Hin.
          destruct Hin as [i [<- _]].
          apply work_items_for_dim_no_separator.
        * replace (Z.to_nat (Z.max (Z.of_nat (S B)) (Z.of_nat (S G))))
            with (S (Nat.max B G)) by lia.
          discriminate. }
  split; [exact Hcount|].
  rewrite Hcount. unfold work_dim, n_block.
  destruct (length (grid_size kernel)) as [|G];
    destruct (length (block_dim kernel)) as [|B]; cbn [Nat.eqb orb]; lia.
Qed.

(** X8: for every dimension [i] that the list of total work items covers,
    [i < max(n_block, grid_dim)], the entry is made of the block size and
    the grid bound that exist at [i]: both when both exist, the one that
    exists otherwise, and at least one does.  No entry is read past the end
    of either vector. *)
Theorem work_items_in_range (p : isl_printer) (kernel : ppcg_kernel) (i : nat) :
  i < Nat.max (length (block_dim kernel)) (length (grid_size kernel)) ->
  opencl_print_total_number_of_work_items_for_dim p kernel (Z.of_nat i)
  = p ++ match nth_error (block_dim kernel) i, nth_error (grid_size kernel) i
         with
         | Some b, Some g => [Str "("; PwAff g; Str ") * "; Int b]
         | Some b, None => [Int b]
         | None, Some g => [PwAff g]
         | None, None => []
         end
  /\ (nth_error (block_dim kernel) i <> None
      \/ nth_error (grid_size kernel) i <> None).
Proof.
  intros Hi. rewrite work_items_for_dim_eq. unfold work_items_for_dim_spec.
  rewrite Nat2Z.id.
  destruct (nth_error (block_dim kernel) i) as [b|] eqn:Eb;
    destruct (nth_error (grid_size kernel) i) as [g|] eqn:Eg.
  - pose proof (nth_error_Some (block_dim kernel) i) as Hb.
    pose proof (nth_error_Some (grid_size kernel) i) as Hg.
    rewrite Eb in Hb. rewrite Eg in Hg.
    assert (i < length (block_dim kernel)) by (apply Hb; discriminate).
    assert (i < length (grid_size kernel)) by (apply Hg; discriminate).
    replace (Z.of_nat i <? _)%Z with true
      by (symmetry; apply Z.ltb_lt; lia).
    rewrite (nth_error_nth _ _ _ Eb), (nth_error_nth _ _ _ Eg).
    split; [reflexivity | left; discriminate].
  - pose proof (nth_error_Some (block_dim kernel) i) as Hb.
    rewrite Eb in Hb. apply nth_error_None in Eg.
    assert (i < length (block_dim kernel)) by (apply Hb; discriminate).
    replace (Z.of_nat i <? _)%Z with false
      by (symmetry; apply Z.ltb_ge; lia).
    replace (_ <=? Z.of_nat i)%Z with true
      by (symmetry; apply Z.leb_le; lia).
    rewrite (nth_error_nth _ _ _ Eb).
    split; [reflexivity | left; discriminate].
  - pose proof (nth_error_Some (grid_size kernel) i) as Hg.
    rewrite Eg in Hg. apply nth_error_None in Eb.
    assert (i < length (grid_size kernel)) by (apply Hg; discriminate).
    replace (Z.of_nat i <? _)%Z with false
      by (symmetry; apply Z.ltb_ge; lia).
    replace (_ <=? Z.of_nat i)%Z with false
      by (symmetry; apply Z.leb_gt; lia).
    rewrite (nth_error_nth _ _ _ Eg).
    split; [reflexivity | right; discriminate].
  - apply nth_error_None in Eb. apply nth_error_None in Eg. lia.
Qed.

Lemma work_items_in_range_witness :
  opencl_print_total_number_of_work_items_for_dim [] kernel_b1_g2 1
  = [PwAff (mk_pw_aff "m")]
  /\ (nth_error (block_dim kernel_b1_g2) 1 <> None
      \/ nth_error (grid_size kernel_b1_g2) 1 <> None).
Proof.
  apply (work_items_in_range [] kernel_b1_g2 (i := 1)).
  simpl. lia.
Defined.

(** ** The text of a kernel *)

Lemma for_loop_append {S : Type} (item : nat -> list S)
    (body : nat -> list S -> list S) :
  (forall i q, body i q = q ++ item i) ->
  forall n lo p, for_loop lo n body p = p ++ flat_map item (seq lo n).
Proof.
  intros Hbody. induction n as [|n IH]; intros lo p; simpl.
  - rewrite app_nil_r. reflexivity.
  - rewrite IH, Hbody, <- app_assoc. reflexivity.
Qed.


Lemma iterator_loop (name call : string) (n : nat) (p : isl_printer) :
  for_loop 0 n
    (fun i p =>
       let p := if negb (Nat.eqb i 0) then isl_printer_print_str p ", "
                else p in
       let p := isl_printer_print_str p name in
       let p := isl_printer_print_int p (Z.of_nat i) in
       let p := isl_printer_print_str p call in
       let p := isl_printer_print_int p (Z.of_nat i) in
       isl_printer_print_str p ")")
    p
  = p ++ separated (Str ", ")
           (map (fun i =>
                   [Str name; Int (Z.of_nat i); Str call; Int (Z.of_nat i);
                    Str ")"])
              (seq 0 n)).
Proof.
  rewrite for_loop_ext with
    (body' := fun i p =>
       (if negb (Nat.eqb i 0) then p ++ [Str ", "] else p)
       ++ [Str name; Int (Z.of_nat i); Str call; Int (Z.of_nat i); Str ")"]).
  - apply for_loop_separated.
  - intros i q. appended. reflexivity.
Qed.

Lemma print_kernel_iterators_eq p kernel :
  opencl_print_kernel_iterators p kernel = p ++ kernel_iterators_of kernel.
Proof.
  unfold opencl_print_kernel_iterators, kernel_iterators_of, iterator_line,
    isl_multi_pw_aff_dim, n_block.
  cbv zeta.
  assert (Hpos : forall (A : Type) (x : A) (l : list A),
            (Z.of_nat (length (x :: l)) >? 0)%Z = true).
  { intros A x l. apply Z.gtb_lt. simpl. lia. }
  destruct (grid_size kernel) as [|g gs]; destruct (block_dim kernel) as [|b bs];
    rewrite ?Hpos;
    change (Z.of_nat (@length isl_pw_aff []) >? 0)%Z with false;
    change (Z.of_nat (@length Z []) >? 0)%Z with false;
    rewrite ?Nat2Z.id, ?iterator_loop; appended; rewrite ?app_nil_r;
    reflexivity.
Qed.

(** X9: a kernel starts by declaring one variable [b<i>] per grid
    dimension, set to [get_group_id(i)], and one variable [t<i>] per block
    dimension, set to [get_local_id(i)], each kind on one line of the
    iterator type, in the order of the dimensions.  The line of a kind
    without dimensions is left out altogether. *)
Theorem kernel_iterator_declarations (p : isl_printer) (kernel : ppcg_kernel) :
  let type :=
    isl_options_get_ast_iterator_type
      (isl_ast_node_get_ctx (kernel_tree kernel)) in
  let line name call n :=
    [StartLine; Str type; Str " "]
    ++ separated (Str ", ")
         (map (fun i =>
                 [Str name; Int (Z.of_nat i); Str call; Int (Z.of_nat i);
                  Str ")"])
            (seq 0 n))
    ++ [Str ";"; EndLine] in
  opencl_print_kernel_iterators p kernel
  = p ++ (if Nat.eqb (length (grid_size kernel)) 0 then []
          else line "b" " = get_group_id(" (length (grid_size kernel)))
      ++ (if Nat.eqb (length (block_dim kernel)) 0 then []
          else line "t" " = get_local_id(" (length (block_dim kernel))).
Proof.
  cbv zeta. rewrite print_kernel_iterators_eq.
  unfold kernel_iterators_of, iterator_line.
  destruct (grid_size kernel), (block_dim kernel); reflexivity.
Qed.

Lemma print_kernel_var_eq p var :
  opencl_print_kernel_var p var = p ++ kernel_var_of var.
Proof.
  unfold opencl_print_kernel_var, kernel_var_of. cbv zeta.
  rewrite for_loop_append with
    (item := fun j => [Str "["; Val (nth j (var_size var) 0%Z); Str "]"]).
  - destruct (var_type var); appended; reflexivity.
  - intros j q. appended. reflexivity.
Qed.

(** X10: a kernel variable whose size vector has one extent per dimension
    of its array is declared on one line: [__local] for a shared variable
    and nothing for the others, the element type of the array, the name, and
    the extents in brackets in the order of the dimensions. *)
Theorem kernel_var_declaration (p : isl_printer) (var : ppcg_kernel_var) :
  length (var_size var) = array_n_index (var_array var) ->
  opencl_print_kernel_var p var
  = p ++ [StartLine]
      ++ (match var_type var with
          | ppcg_access_shared => [Str "__local "]
          | _ => []
          end)
      ++ [Str (array_type (var_array var)); Str " "; Str (var_name var)]
      ++ flat_map (fun v => [Str "["; Val v; Str "]"]) (var_size var)
      ++ [Str ";"; EndLine].
Proof.
  intros Hlen. rewrite print_kernel_var_eq. unfold kernel_var_of.
  rewrite <- Hlen. do 4 f_equal.
  rewrite <- (map_nth_seq 0%Z (var_size var)) at 2.
  rewrite !flat_map_concat_map, map_map. reflexivity.
Qed.

Lemma kernel_var_declaration_witness :
  opencl_print_kernel_var []
    (mk_kernel_var array_A ppcg_access_shared "shared_A" [16%Z; 32%Z])
  = [StartLine; Str "__local "; Str "float"; Str " "; Str "shared_A";
     Str "["; Val 16; Str "]"; Str "["; Val 32; Str "]"; Str ";"; EndLine].
Proof.
  apply (kernel_var_declaration []
           (mk_kernel_var array_A ppcg_access_shared "shared_A"
              [16%Z; 32%Z])).
  reflexivity.
Defined.



(** ** Buffers that are used are buffers that exist *)

Lemma flat_map_in_split {A B : Type} (f : A -> list B) (l : list A) (a : A) :
  In a l -> exists pre post, flat_map f l = pre ++ f a ++ post.
Proof.
  intros Hin. apply in_split in Hin. destruct Hin as [l1 [l2 ->]].
  exists (flat_map f l1), (flat_map f l2).
  rewrite flat_map_app. reflexivity.
Qed.

Lemma in_enumerate_from {A : Type} (x : A) (l : list A) :
  In x l -> forall k0, exists k, In (k, x) (enumerate_from k0 l).
Proof.
  induction l as [|a l IH]; intros Hin k0; simpl in *.
  - contradiction.
  - destruct Hin as [-> | Hin].
    + exists k0. left. reflexivity.
    + destruct (IH Hin (k0 + 1)%Z) as [k Hk]. exists k. right. exact Hk.
Qed.

Lemma buffer_statements prog array :
  In array (prog_array prog) ->
  gpu_array_is_read_only_scalar array = false ->
  (exists pre post,
     opencl_declare_device_arrays [] prog
     = pre ++ [StartLine; Str "cl_mem dev_"; Str (array_name array); Str ";";
               EndLine] ++ post)
  /\ (exists pre post,
        opencl_allocate_device_arrays [] prog
        = pre
          ++ [StartBlock; StartLine; Str "dev_"; Str (array_name array);
              Str " = clCreateBuffer(context, "; Str "CL_MEM_READ_WRITE";
              Str (if in_footprint (prog_copy_in prog) array
                   then " | CL_MEM_COPY_HOST_PTR, " else ", ")]
          ++ size_argument array
          ++ host_pointer_argument array
               (in_footprint (prog_copy_in prog) array)
          ++ [Str ", &err);"; EndLine;
              StartLine; Str "openclCheckReturn(err);"; EndLine; EndBlock]
          ++ post)
  /\ (exists pre post,
        opencl_release_device_arrays [] prog
        = pre ++ [StartLine; Str "openclCheckReturn(clReleaseMemObject(dev_";
                  Str (array_name array); Str "));"; EndLine] ++ post).
Proof.
  intros Hin Hro.
  assert (Hbuf : In array (filter needs_device_buffer (prog_array prog))).
  { apply filter_In. split; [exact Hin|].
    unfold needs_device_buffer. rewrite Hro. reflexivity. }
  split; [|split].
  - rewrite declare_device_arrays_eq.
    destruct (flat_map_in_split buffer_declaration _ _ Hbuf)
      as [pre [post Heq]].
    exists pre, (post ++ [StartLine; EndLine]).
    cbn [app]. rewrite Heq. unfold buffer_declaration.
    rewrite <- !app_assoc. reflexivity.
  - rewrite allocate_device_arrays_eq.
    destruct (flat_map_in_split
                (fun a => allocation_of a (in_footprint (prog_copy_in prog) a))
                _ _ Hbuf) as [pre [post Heq]].
    exists pre, (post ++ [StartLine; EndLine]).
    cbn [app]. rewrite Heq. unfold allocation_of.
    rewrite <- !app_assoc. reflexivity.
  - rewrite release_device_arrays_eq.
    destruct (flat_map_in_split release_statement _ _ Hbuf)
      as [pre [post Heq]].
    exists pre, post. cbn [app]. rewrite Heq. reflexivity.
Qed.

(** X12: an array of the program that a kernel accesses and that is not a
    read-only scalar is bound to the kernel through the address of its
    buffer [dev_<name>], and the host code holds the declaration
    [cl_mem dev_<name>;], the allocation [dev_<name> = clCreateBuffer(...)]
    and the release [clReleaseMemObject(dev_<name>)] of that buffer. *)
Theorem bound_buffers_exist (prog : gpu_prog) (kernel : ppcg_kernel)
    (array : gpu_array_info) :
  In array (prog_array prog) ->
  accessed kernel array = true ->
  gpu_array_is_read_only_scalar array = false ->
  (exists k pre post,
     opencl_set_kernel_arguments [] prog kernel
     = pre ++ [StartLine; Str "openclCheckReturn(clSetKernelArg(kernel";
               Int (kernel_id kernel); Str ", "; Int k; Str ", sizeof(";
               Str "cl_mem), (void *) &dev_"; Str (array_name array);
               Str "));"; EndLine] ++ post)
  /\ (exists pre post,
        opencl_declare_device_arrays [] prog
        = pre ++ [StartLine; Str "cl_mem dev_"; Str (array_name array);
                  Str ";"; EndLine] ++ post)
  /\ (exists pre post,
        opencl_allocate_device_arrays [] prog
        = pre
          ++ [StartBlock; StartLine; Str "dev_"; Str (array_name array);
              Str " = clCreateBuffer(context, "; Str "CL_MEM_READ_WRITE";
              Str (if in_footprint (prog_copy_in prog) array
                   then " | CL_MEM_COPY_HOST_PTR, " else ", ")]
          ++ size_argument array
          ++ host_pointer_argument array
               (in_footprint (prog_copy_in prog) array)
          ++ [Str ", &err);"; EndLine;
              StartLine; Str "openclCheckReturn(err);"; EndLine; EndBlock]
          ++ post)
  /\ (exists pre post,
        opencl_release_device_arrays [] prog
        = pre ++ [StartLine; Str "openclCheckReturn(clReleaseMemObject(dev_";
                  Str (array_name array); Str "));"; EndLine] ++ post).
Proof.
  intros Hin Hacc Hro. split; [|apply buffer_statements; assumption].
  assert (Harg : In (ArrayArg array) (ordered_arguments prog kernel)).
  { unfold ordered_arguments. apply in_or_app. left. apply in_map.
    apply filter_In. split; assumption. }
  destruct (in_enumerate_from _ _ Harg 0%Z) as [k Hk].
  destruct (flat_map_in_split
              (fun ka => binding_of (kernel_id kernel) (fst ka) (snd ka))
              _ _ Hk) as [pre [post Heq]].
  exists k, pre, post. rewrite set_kernel_arguments_eq. unfold bindings_of.
  cbn [app]. rewrite Heq. unfold binding_of. cbn [fst snd bound_by_value
    argument_name]. rewrite Hro. reflexivity.
Qed.

Lemma bound_buffers_exist_witness :
  (exists k pre post,
     opencl_set_kernel_arguments [] prog_ATc kernel_Ac
     = pre ++ [StartLine; Str "openclCheckReturn(clSetKernelArg(kernel";
               Int 3; Str ", "; Int k; Str ", sizeof(";
               Str "cl_mem), (void *) &dev_"; Str "A"; Str "));"; EndLine]
           ++ post)
  /\ (exists pre post,
        opencl_declare_device_arrays [] prog_ATc
        = pre ++ [StartLine; Str "cl_mem dev_"; Str "A"; Str ";"; EndLine]
              ++ post)
  /\ (exists pre post,
        opencl_allocate_device_arrays [] prog_ATc
        = pre
          ++ [StartBlock; StartLine; Str "dev_"; Str "A";
              Str " = clCreateBuffer(context, "; Str "CL_MEM_READ_WRITE";
              Str ", "]
          ++ [Str "max(sizeof("; Str "float"; Str "), "; ArraySize array_A;
              Str ")"]
          ++ [Str ", NULL"]
          ++ [Str ", &err);"; EndLine;
              StartLine; Str "openclCheckReturn(err);"; EndLine; EndBlock]
          ++ post)
  /\ (exists pre post,
        opencl_release_device_arrays [] prog_ATc
        = pre ++ [StartLine; Str "openclCheckReturn(clReleaseMemObject(dev_";
                  Str "A"; Str "));"; EndLine] ++ post).
Proof.
  apply (bound_buffers_exist prog_ATc kernel_Ac array_A).
  - left. reflexivity.
  - reflexivity.
  - reflexivity.
Defined.

(** X13: an array of the program whose part of the write footprint is not
    empty is copied back by a clEnqueueReadBuffer from its buffer
    [dev_<name>] to the host array, or to the address of the host scalar,
    inside its positive-size guard when that guard is not trivial.  When
    the array is not a read-only scalar, the host code also holds the
    declaration, the allocation and the release of that buffer. *)
Theorem copied_buffers_exist (prog : gpu_prog) (array : gpu_array_info) :
  In array (prog_array prog) ->
  in_footprint (prog_copy_out prog) array = true ->
  (exists pre post,
     opencl_copy_arrays_from_device [] prog
     = pre
       ++ (if is_array_positive_size_guard_trivial array then []
           else [GuardBegin (gpu_array_positive_size_guard array)
                   (prog_context prog)])
       ++ [StartLine;
           Str "openclCheckReturn(clEnqueueReadBuffer(queue, dev_";
           Str (array_name array); Str ", CL_TRUE, 0, "; ArraySize array;
           Str (if gpu_array_is_scalar array then ", &" else ", ");
           Str (array_name array); Str ", 0, NULL, NULL));"; EndLine]
       ++ (if is_array_positive_size_guard_trivial array then []
           else [GuardEnd])
       ++ post)
  /\ (gpu_array_is_read_only_scalar array = false ->
      (exists pre post,
         opencl_declare_device_arrays [] prog
         = pre ++ [StartLine; Str "cl_mem dev_"; Str (array_name array);
                   Str ";"; EndLine] ++ post)
      /\ (exists pre post,
            opencl_allocate_device_arrays [] prog
            = pre
              ++ [StartBlock; StartLine; Str "dev_"; Str (array_name array);
                  Str " = clCreateBuffer(context, "; Str "CL_MEM_READ_WRITE";
                  Str (if in_footprint (prog_copy_in prog) array
                       then " | CL_MEM_COPY_HOST_PTR, " else ", ")]
              ++ size_argument array
              ++ host_pointer_argument array
                   (in_footprint (prog_copy_in prog) array)
              ++ [Str ", &err);"; EndLine;
                  StartLine; Str "openclCheckReturn(err);"; EndLine;
                  EndBlock]
              ++ post)
      /\ (exists pre post,
            opencl_release_device_arrays [] prog
            = pre
              ++ [StartLine;
                  Str "openclCheckReturn(clReleaseMemObject(dev_";
                  Str (array_name array); Str "));"; EndLine]
              ++ post)).
Proof.
  intros Hin Hout. split; [|intros Hro; apply buffer_statements; assumption].
  assert (Hcopied :
    In array (filter (in_footprint (prog_copy_out prog)) (prog_array prog))).
  { apply filter_In. split; assumption. }
  destruct (flat_map_in_split (copy_back_of prog) _ _ Hcopied)
    as [pre [post Heq]].
  exists pre, (post ++ [StartLine; EndLine]).
  rewrite copy_arrays_from_device_eq. cbn [app].
  rewrite Heq. unfold copy_back_of, copy_statement.
  destruct (is_array_positive_size_guard_trivial array);
    cbn [app]; rewrite <- !app_assoc; reflexivity.
Qed.

Lemma copied_buffers_exist_witness :
  (exists pre post,
     opencl_copy_arrays_from_device [] prog_ATc
     = pre
       ++ [GuardBegin positive_guard universe]
       ++ [StartLine;
           Str "openclCheckReturn(clEnqueueReadBuffer(queue, dev_";
           Str "A"; Str ", CL_TRUE, 0, "; ArraySize array_A; Str ", ";
           Str "A"; Str ", 0, NULL, NULL));"; EndLine]
       ++ [GuardEnd]
       ++ post)
  /\ (exists pre post,
        opencl_declare_device_arrays [] prog_ATc
        = pre ++ [StartLine; Str "cl_mem dev_"; Str "A"; Str ";"; EndLine]
              ++ post)
  /\ (exists pre post,
        opencl_release_device_arrays [] prog_ATc
        = pre ++ [StartLine; Str "openclCheckReturn(clReleaseMemObject(dev_";
                  Str "A"; Str "));"; EndLine] ++ post).
Proof.
  destruct (copied_buffers_exist prog_ATc array_A)
    as [Hcopy Hbuffer].
  - left. reflexivity.
  - reflexivity.
  - destruct (Hbuffer eq_refl) as [Hdecl [_ Hrel]].
    split; [exact Hcopy|]. split; [exact Hdecl | exact Hrel].
Defined.

(** The copy-back loop does not look at the read-only-scalar flag: for a
    read-only scalar in the write footprint it reads from a buffer that is
    never declared. *)
Example copy_back_of_read_only_scalar :
  opencl_copy_arrays_from_device [] prog_c_written
  = [GuardBegin positive_guard universe;
     StartLine; Str "openclCheckReturn(clEnqueueReadBuffer(queue, dev_";
     Str "A"; Str ", CL_TRUE, 0, "; ArraySize array_A; Str ", "; Str "A";
     Str ", 0, NULL, NULL));"; EndLine;
     GuardEnd;
     StartLine; Str "openclCheckReturn(clEnqueueReadBuffer(queue, dev_";
     Str "c"; Str ", CL_TRUE, 0, "; ArraySize array_c; Str ", &"; Str "c";
     Str ", 0, NULL, NULL));"; EndLine;
     StartLine; EndLine]
  /\ opencl_declare_device_arrays [] prog_c_written
     = [StartLine; Str "cl_mem dev_"; Str "A"; Str ";"; EndLine;
        StartLine; EndLine].
Proof. split; reflexivity. Qed.

(** ** Double precision *)

Lemma prefix_iff :
  forall needle haystack,
    String.prefix needle haystack = true
    <-> exists post, haystack = (needle ++ post)%string.
Proof.
  induction needle as [|a needle IH]; intros haystack.
  - split; [|destruct haystack; reflexivity].
    intros _. exists haystack. reflexivity.
  - destruct haystack as [|b haystack]; simpl.
    + split; [discriminate | intros [post H]; discriminate].
    + destruct (ascii_dec a b) as [<- | Hab].
      * rewrite IH. split; intros [post H]; exists post; congruence.
      * split; [discriminate | intros [post H]; congruence].
Qed.

Lemma strstr_iff needle :
  forall haystack,
    strstr haystack needle = true
    <-> exists pre post, haystack = (pre ++ needle ++ post)%string.
Proof.
  induction haystack as [|a haystack IH]; cbn [strstr].
  - destruct (String.prefix needle EmptyString) eqn:E.
    + split; [|reflexivity]. intros _. apply prefix_iff in E.
      destruct E as [post E]. exists EmptyString, post. exact E.
    + split; [discriminate|]. intros [pre [post H]].
      destruct pre; [|discriminate]. simpl in H.
      assert (String.prefix needle EmptyString = true)
        by (apply prefix_iff; exists post; exact H).
      congruence.
  - destruct (String.prefix needle (String a haystack)) eqn:E.
    + split; [|reflexivity]. intros _. apply prefix_iff in E.
      destruct E as [post E]. exists EmptyString, post. exact E.
    + rewrite IH. split.
      * intros [pre [post H]]. exists (String a pre), post. simpl.
        rewrite H. reflexivity.
      * intros [pre [post H]]. destruct pre as [|b pre].
        -- simpl in H.
           assert (String.prefix needle (String a haystack) = true)
             by (apply prefix_iff; exists post; exact H).
           congruence.
        -- simpl in H. injection H as _ H. exists pre, post. exact H.
Qed.

Lemma for_loop_return_nth {A R : Type} (d : A) (test : A -> bool) (r : R) :
  forall (l pre : list A),
    for_loop_return (length pre) (length l)
      (fun i => if test (nth i (pre ++ l) d) then Some r else None)
    = if existsb test l then Some r else None.
Proof.
  induction l as [|a l IH]; intros pre; simpl.
  - reflexivity.
  - rewrite app_nth2 by lia. rewrite Nat.sub_diag. simpl.
    destruct (test a); [reflexivity|]. simpl.
    specialize (IH (pre ++ [a])). rewrite length_app in IH. simpl in IH.
    rewrite Nat.add_1_r, <- app_assoc in IH. exact IH.
Qed.

Lemma for_loop_return_list {A R : Type} (d : A) (test : A -> bool) (r : R)
    (l : list A) :
  for_loop_return 0 (length l)
    (fun i => if test (nth i l d) then Some r else None)
  = if existsb test l then Some r else None.
Proof. exact (for_loop_return_nth d test r l []). Qed.

(** X14: [any_double_elements] returns 1 when some array of the program
    has the element type [double] or when the definition of some type of
    the scop contains the text [double] anywhere, and 0 otherwise.  An
    array type is compared as a whole, a type definition is searched. *)
Theorem any_double_elements_spec (prog : gpu_prog) (scop : pet_scop) :
  (any_double_elements prog scop = 1%Z
   <-> (exists array,
          In array (prog_array prog) /\ array_type array = "double")
       \/ (exists type pre post,
             In type (scop_types scop)
             /\ type_definition type = (pre ++ "double" ++ post)%string))
  /\ (any_double_elements prog scop = 1%Z
      \/ any_double_elements prog scop = 0%Z).
Proof.
  unfold any_double_elements, n_array, n_type, array_at.
  rewrite (for_loop_return_list null_array
             (fun a => String.eqb (array_type a) "double") 1%Z
             (prog_array prog)).
  cbv zeta.
  rewrite (for_loop_return_list (mk_pet_type EmptyString)
             (fun t => strstr (type_definition t) "double") 1%Z
             (scop_types scop)).
  destruct (existsb _ (prog_array prog)) eqn:Ea.
  - split; [|left; reflexivity]. split; [|reflexivity]. intros _. left.
    apply existsb_exists in Ea. destruct Ea as [a [Hin Ha]].
    exists a. split; [exact Hin|]. apply String.eqb_eq. exact Ha.
  - destruct (existsb _ (scop_types scop)) eqn:Et.
    + split; [|left; reflexivity]. split; [|reflexivity]. intros _. right.
      apply existsb_exists in Et. destruct Et as [t [Hin Ht]].
      apply strstr_iff in Ht. destruct Ht as [pre [post Ht]].
      exists t, pre, post. split; assumption.
    + split; [|right; reflexivity]. split; [discriminate|].
      intros [[a [Hin Ha]] | [t [pre [post [Hin Ht]]]]].
      * assert (existsb (fun a => String.eqb (array_type a) "double")
                  (prog_array prog) = true).
        { apply existsb_exists. exists a. split; [exact Hin|].
          apply String.eqb_eq. exact Ha. }
        congruence.
      * assert (existsb (fun t => strstr (type_definition t) "double")
                  (scop_types scop) = true).
        { apply existsb_exists. exists t. split; [exact Hin|].
          apply strstr_iff. exists pre, post. exact Ht. }
        congruence.
Qed.

Example any_double_elements_samples :
  any_double_elements prog_ATc (mk_pet_scop []) = 1%Z
  /\ any_double_elements (sample_prog "int" [array_A]) (mk_pet_scop []) = 0%Z
  /\ any_double_elements (sample_prog "int" [array_A])
       (mk_pet_scop [mk_pet_type "struct s { doubled_t x; };"])
     = 1%Z.
Proof. repeat split. Qed.

(** ** The kernel file that the host code builds *)

Lemma setup_eq p input info options :
  opencl_setup p input info options
  = p ++ setup_declarations (opencl_use_gpu options)
      ++ [StartLine;
          Str ("program = opencl_build_program(context, device, "
               ++ dquote)%string;
          Str (info_kernel_c_name info);
          Str (dquote ++ ", " ++ dquote)%string]
      ++ (match opencl_compiler_options options with
          | Some compiler_options => [Str compiler_options]
          | None => []
          end)
      ++ [Str (dquote ++ ");")%string; EndLine; StartLine; EndLine].
Proof.
  unfold opencl_setup, setup_declarations. cbv zeta.
  destruct (opencl_compiler_options options); appended; reflexivity.
Qed.

(** X15: once [opencl_open_files] has returned 0, the file that the host
    code passes to [opencl_build_program] is the file that is open for the
    kernels: [opencl_setup] prints the name recorded in [kernel_c_name],
    and the handle [kernel_c] is a handle on the file of that name.  The
    compiler options follow as a second string, empty when none are set. *)
Theorem setup_builds_kernel_file extract base info w info' w'
    (p : isl_printer) (input : string) (options : ppcg_options) :
  opencl_open_files extract base info w = Returns (0%Z, info', w') ->
  info_kernel_c info' = Some (info_kernel_c_name info')
  /\ In (info_kernel_c_name info') (open_handles w')
  /\ opencl_setup p input info' options
     = p ++ setup_declarations (opencl_use_gpu options)
         ++ [StartLine;
             Str ("program = opencl_build_program(context, device, "
                  ++ dquote)%string;
             Str (info_kernel_c_name info');
             Str (dquote ++ ", " ++ dquote)%string]
         ++ (match opencl_compiler_options options with
             | Some compiler_options => [Str compiler_options]
             | None => []
             end)
         ++ [Str (dquote ++ ");")%string; EndLine; StartLine; EndLine].
Proof.
  intros Hret. pose proof (open_files_eq extract base info w) as Heq.
  cbv zeta in Heq. rewrite Hret in Heq. unfold try_open in Heq.
  destruct (stem_length extract info + 11 <=? PATH_MAX)%nat; [|discriminate].
  destruct (can_open w (host_c_name extract info)); [|discriminate].
  destruct (can_open w (kernel_c_name extract info)); [|discriminate].
  destruct (can_open w (kernel_h_name extract info)); [|discriminate].
  injection Heq as -> ->. cbn [info_kernel_c info_kernel_c_name open_handles].
  split; [reflexivity|]. split; [|apply setup_eq].
  apply in_or_app. right. cbn. auto.
Qed.

Lemma setup_builds_kernel_file_witness :
  Some "out_kernel.cl" = Some "out_kernel.cl"
  /\ In "out_kernel.cl" ["out.c"; "out_kernel.cl"; "out_kernel.h"]
  /\ opencl_setup [] "in.c"
       (mk_info "in.c" (Some "out.c") "out_kernel.cl" (Some "out.c")
          (Some "out_kernel.cl") (Some "out_kernel.h"))
       (mk_options 1 None)
     = setup_declarations 1
       ++ [StartLine;
           Str ("program = opencl_build_program(context, device, "
                ++ dquote)%string;
           Str "out_kernel.cl"; Str (dquote ++ ", " ++ dquote)%string]
       ++ [] ++ [Str (dquote ++ ");")%string; EndLine; StartLine; EndLine].
Proof.
  apply (setup_builds_kernel_file (fun s => s) (fun s => s) info_out_c
           world_open
           (info' := mk_info "in.c" (Some "out.c") "out_kernel.cl"
                       (Some "out.c") (Some "out_kernel.cl")
                       (Some "out_kernel.h"))
           (w' := mk_world (fun _ => true)
                    ["out.c"; "out_kernel.cl"; "out_kernel.h"] []
                    (prologue "out.c" "out_kernel.h" "out_kernel.h") [])
           [] "in.c" (mk_options 1 None)).
  reflexivity.
Defined.

(** ** Indentation *)

Lemma indentation_app t u :
  indentation (t ++ u) = (indentation t + indentation u)%Z.
Proof.
  induction t as [|e t IH]; simpl; [reflexivity|].
  destruct e; rewrite ?IH; lia.
Qed.

Lemma indentation_flat_map {A : Type} (f : A -> list event) (l : list A) :
  (forall a, indentation (f a) = 0%Z) -> indentation (flat_map f l) = 0%Z.
Proof.
  intros Hf. induction l as [|a l IH]; simpl; [reflexivity|].
  rewrite indentation_app, Hf, IH. reflexivity.
Qed.

Lemma indentation_separated (items : list (list event)) :
  (forall item, In item items -> indentation item = 0%Z) ->
  indentation (separated (Str ", ") items) = 0%Z.
Proof.
  intros Hitems. destruct items as [|x xs]; [reflexivity|]. simpl.
  rewrite indentation_app, (Hitems x) by (left; reflexivity). simpl.
  induction xs as [|y ys IH]; simpl; [reflexivity|].
  rewrite indentation_app, (Hitems y) by (right; left; reflexivity).
  apply IH. intros item [<- | Hin]; apply Hitems; simpl; auto.
Qed.

Lemma indent_steps_app t u :
  indent_steps (t ++ u) = indent_steps t ++ indent_steps u.
Proof.
  induction t as [|e t IH]; simpl; [reflexivity|].
  destruct e; rewrite ?IH; reflexivity.
Qed.

Lemma indent_steps_flat_map {A : Type} (f : A -> list event) (l : list A) :
  (forall a, indent_steps (f a) = []) -> indent_steps (flat_map f l) = [].
Proof.
  intros Hf. induction l as [|a l IH]; simpl; [reflexivity|].
  rewrite indent_steps_app, Hf, IH. reflexivity.
Qed.

Lemma indent_steps_separated (items : list (list event)) :
  (forall item, In item items -> indent_steps item = []) ->
  indent_steps (separated (Str ", ") items) = [].
Proof.
  intros Hitems. destruct items as [|x xs]; [reflexivity|]. simpl.
  rewrite indent_steps_app, (Hitems x) by (left; reflexivity). simpl.
  induction xs as [|y ys IH]; simpl; [reflexivity|].
  rewrite indent_steps_app, (Hitems y) by (right; left; reflexivity).
  apply IH. intros item [<- | Hin]; apply Hitems; simpl; auto.
Qed.

Lemma indentation_steps t :
  indentation t = fold_right Z.add 0%Z (indent_steps t).
Proof.
  induction t as [|e t IH]; simpl; [reflexivity|].
  destruct e; simpl; rewrite ?IH; reflexivity.
Qed.

(** X16: the indentation steps that [opencl_print_host_user] makes on the
    host printer are 2 and then -2 and no other, whatever the kernel, its
    sizes and its arguments are; a launch site therefore leaves the
    indentation of the host printer as it found it. *)
Theorem launch_site_keeps_indentation (p : isl_printer) (prog : gpu_prog)
    (kernel_c : isl_printer) (kernel : ppcg_kernel) :
  indent_steps (fst (opencl_print_host_user p prog kernel_c kernel))
  = indent_steps p ++ [2%Z; (-2)%Z]
  /\ indentation (fst (opencl_print_host_user p prog kernel_c kernel))
     = indentation p.
Proof.
  assert (Hsteps :
    indent_steps (fst (opencl_print_host_user p prog kernel_c kernel))
    = indent_steps p ++ [2%Z; (-2)%Z]).
  { rewrite host_user_eq. unfold launch_statements, bindings_of.
    assert (Htotal :
      indent_steps
        (total_work_items_spec (block_dim kernel) (grid_size kernel))
      = []).
    { unfold total_work_items_spec. destruct (_ || _); [reflexivity|].
      apply indent_steps_separated. intros item Hin.
      apply in_map_iff in Hin. destruct Hin as [i [<- _]].
      unfold work_items_for_dim_spec.
      destruct (_ <? _)%Z; [|destruct (_ <=? _)%Z]; reflexivity. }
    assert (Hblock : indent_steps (block_sizes_spec (block_dim kernel)) = []).
    { unfold block_sizes_spec. destruct (block_dim kernel) as [|x b] eqn:E;
        [reflexivity|].
      apply indent_steps_separated. intros item Hin.
      apply in_map_iff in Hin. destruct Hin as [y [<- _]]. reflexivity. }
    assert (Hbind :
      indent_steps
        (flat_map (fun ka => binding_of (kernel_id kernel) (fst ka) (snd ka))
           (enumerate_from 0%Z (ordered_arguments prog kernel)))
      = []).
    { apply indent_steps_flat_map. intros [k arg]. unfold binding_of. simpl.
      destruct (bound_by_value arg); reflexivity. }
    repeat (rewrite indent_steps_app; cbn [indent_steps]).
    rewrite Htotal, Hblock, Hbind. reflexivity. }
  split; [exact Hsteps|].
  rewrite !indentation_steps, Hsteps, fold_right_app. cbn [fold_right].
  reflexivity.
Qed.
